(** * ytube: transcript summariser (app.py) and video analysis tool (app5.py)

    A shallow embedding of the two Streamlit scripts of the repository.
    Python strings are [string], lists are [list], dictionaries are [gmap],
    floats are the kernel's binary64 floats.  The external services
    (transcript API, Gemini, YouTube Data API, spaCy, TextBlob) are the fields
    of a record [world]; every call to one of them and every Streamlit or
    logging call is recorded in a trace of [event]s, and Python exceptions
    are the [Raise] results of a small writer/error monad [M]. *)

From Stdlib Require Import Ascii.
From Stdlib Require Import Floats.PrimFloat Floats.FloatOps Floats.FloatAxioms Floats.SpecFloat.
From stdpp Require Import base option list strings gmap pretty.

Local Open Scope string_scope.
Local Open Scope list_scope.

(** ** Python values shared by both scripts *)

Module Py.

(** The exceptions the scripts can meet.  All of them derive from Python's
    [Exception]; the three transcript errors are siblings (none is a subclass
    of another), so an [except] clause selects by constructor.  Exceptions
    raised inside a service carry the message the service gave them. *)
Inductive exn : Type :=
  | IndexError
  | NameError (name : string)
  | UnboundLocalError (name : string)
  | KeyError (key : string)
  | TypeError (msg : string)
  | ValueError (msg : string)
  | NoTranscriptFound (msg : string)
  | TranscriptsDisabled (msg : string)
  | VideoUnavailable (msg : string)
  | OtherError (msg : string).

(** [str(e)], as interpolated by the f-strings of the handlers. *)
Definition str_exn (e : exn) : string :=
  match e with
  | IndexError => "list index out of range"
  | NameError n => "name '" +:+ n +:+ "' is not defined"
  | UnboundLocalError n =>
      "cannot access local variable '" +:+ n
        +:+ "' where it is not associated with a value"
  | KeyError k => "'" +:+ k +:+ "'"
  | TypeError m | ValueError m | NoTranscriptFound m
  | TranscriptsDisabled m | VideoUnavailable m | OtherError m => m
  end.

Inductive result (A : Type) : Type :=
  | Ok (a : A)
  | Raise (e : exn).
Global Arguments Ok {A} a.
Global Arguments Raise {A} e.

(** *** Strings *)

(** [s.split(sep)] for a one-character separator: every occurrence of the
    separator cuts, and the result always has at least one segment. *)
Fixpoint split (sep : ascii) (s : string) : list string :=
  match s with
  | EmptyString => [""]
  | String c s' =>
      if Ascii.eqb c sep then "" :: split sep s'
      else match split sep s' with
           | seg :: rest => String c seg :: rest
           | [] => [String c ""]
           end
  end.

(** [sep.join(l)]. *)
Fixpoint join (sep : string) (l : list string) : string :=
  match l with
  | [] => ""
  | x :: tl =>
      match tl with
      | [] => x
      | _ :: _ => x +:+ sep +:+ join sep tl
      end
  end.

(** [l[i]] for a non-negative literal index. *)
Definition getitem {A} (l : list A) (i : nat) : result A :=
  match l !! i with
  | Some a => Ok a
  | None => Raise IndexError
  end.

(** [l[:n]]: a negative bound counts from the end of the list. *)
Definition slice_to {A} (l : list A) (n : Z) : list A :=
  if (0 <=? n)%Z then take (Z.to_nat n) l
  else take (length l - Z.to_nat (- n)) l.

(** Does the character occur in the string? *)
Fixpoint contains (c : ascii) (s : string) : bool :=
  match s with
  | EmptyString => false
  | String c' s' => if Ascii.eqb c' c then true else contains c s'
  end.

(** The part of [s] before the first [c] (all of [s] when there is none). *)
Fixpoint before_first (c : ascii) (s : string) : string :=
  match s with
  | EmptyString => ""
  | String c' s' => if Ascii.eqb c' c then "" else String c' (before_first c s')
  end.

(** The part of [s] after the first [c], when there is one. *)
Fixpoint after_first (c : ascii) (s : string) : option string :=
  match s with
  | EmptyString => None
  | String c' s' => if Ascii.eqb c' c then Some s' else after_first c s'
  end.

(** Truth value of a string and of a list: empty is false. *)
Definition truthy_str (s : string) : bool :=
  match s with EmptyString => false | _ => true end.

Definition truthy_list {A} (l : list A) : bool :=
  match l with [] => false | _ => true end.

(** [d[k]] on a dictionary. *)
Definition dict_getitem {V} (d : gmap string V) (k : string) : result V :=
  match d !! k with
  | Some v => Ok v
  | None => Raise (KeyError k)
  end.

(** What TextBlob documents of its scores (the comments of
    [analyze_sentiment] repeat it): polarity within [-1.0, 1.0] and
    subjectivity within [0.0, 1.0]. *)
Definition polarity_in_range (p : float) : Prop :=
  (-1 <=? p)%float = true ∧ (p <=? 1)%float = true.

Definition subjectivity_in_range (s : float) : Prop :=
  (0 <=? s)%float = true ∧ (s <=? 1)%float = true.

(** [list(set(l))].  The iteration order of a Python set is not specified:
    all that is known of it is that every element of [l] comes out exactly
    once.  [order] is the order the interpreter happens to use. *)
Definition set_iteration (order : list string → list string) : Prop :=
  ∀ l, NoDup (order l) ∧ ∀ x, x ∈ order l ↔ x ∈ l.

(** *** The services and their data *)

(** A caption segment as the transcript API returns it. *)
Record segment : Type := Segment {
  text : string;
  start : float;
  duration : float
}.

(** A spaCy token, with the two flags the scripts read. *)
Record token : Type := Token {
  token_text : string;
  is_alpha : bool;
  is_stop : bool
}.

(** The tokens [extract_keywords] keeps: alphabetic and not a stopword. *)
Definition kept_token (t : token) : Prop :=
  is_alpha t = true ∧ is_stop t = false.

(** [TextBlob(text).sentiment]. *)
Record sentiment_score : Type := Sentiment {
  polarity : float;
  subjectivity : float
}.

(** A value of the [statistics] dictionary: the Data API sends counts as
    decimal strings; the default of [stats.get] is the integer 0. *)
Inductive stat_value : Type :=
  | StatInt (z : Z)
  | StatStr (s : string).

(** The [snippet] part of a video resource (always sent in full). *)
Record video_snippet : Type := VideoSnippet {
  snippet_title : string;
  snippet_channelTitle : string;
  snippet_channelId : string
}.

(** One element of [response["items"]] of [videos().list]: the statistics
    dictionary may lack any of its keys. *)
Record video_item : Type := VideoItem {
  item_snippet : video_snippet;
  item_statistics : gmap string stat_value
}.

(** One element of [response["items"]] of [commentThreads().list], reduced to
    [item["snippet"]["topLevelComment"]["snippet"]["textOriginal"]]. *)
Record comment_thread : Type := CommentThread {
  textOriginal : string
}.

(** Everything outside the repository.  A service either answers or raises. *)
Record world : Type := World {
  get_transcript : string → option (list string) → result (list segment);
  generate_content : string → string → result string;
  nlp : string → list token;
  textblob_sentiment : string → sentiment_score;
  videos_list : string → result (list video_item);
  comment_threads_list : string → result (list comment_thread);
  set_order : list string → list string;
  int_of_str : string → result Z
}.

(** *** Effects *)

(** What a run does that can be seen from outside: the Streamlit and logging
    calls, and the requests sent to the services. *)
Inductive event : Type :=
  | St_title (s : string)
  | St_text_input (label : string)
  | St_button (label : string)
  | St_image (url : string)
  | St_warning (s : string)
  | St_error (s : string)
  | St_markdown (s : string)
  | St_write (s : string)
  | Logging_error (s : string)
  | Get_transcript (video_id : string) (languages : option (list string))
  | Generate_content (model payload : string)
  | Videos_list (video_id : string)
  | Comment_threads_list (video_id : string).

(** A computation: the events it produced, and its value or the exception
    that ended it. *)
Definition M (A : Type) : Type := list event * result A.

Definition ret {A} (a : A) : M A := ([], Ok a).

Definition bind {A B} (m : M A) (k : A → M B) : M B :=
  match m with
  | (t, Ok a) => let '(t', r) := k a in (t ++ t', r)
  | (t, Raise e) => (t, Raise e)
  end.

Definition emit (ev : event) : M unit := ([ev], Ok tt).

Definition lift {A} (r : result A) : M A := ([], r).

Definition raise {A} (e : exn) : M A := ([], Raise e).

(** [try: body  except ...: handler].  The handler answers [None] for an
    exception no clause matches, which then goes on to the caller. *)
Definition try_except {A} (body : M A) (handler : exn → option (M A)) : M A :=
  match body with
  | (t, Ok a) => (t, Ok a)
  | (t, Raise e) =>
      match handler e with
      | Some h => let '(t', r) := h in (t ++ t', r)
      | None => (t, Raise e)
      end
  end.

(** [for x in l: acc = body(acc, x)]. *)
Fixpoint for_each {A S} (l : list A) (body : S → A → M S) (s : S) : M S :=
  match l with
  | [] => ret s
  | x :: l' => bind (body s x) (for_each l' body)
  end.

(** Reading a variable that an earlier statement may not have assigned. *)
Definition read_var {A} (unbound : exn) (v : option A) : M A :=
  match v with
  | Some a => ret a
  | None => raise unbound
  end.

Definition trace {A} (m : M A) : list event := m.1.
Definition outcome {A} (m : M A) : result A := m.2.

(** The payloads a run sent to the summarizer, in order. *)
Definition summarizer_payloads (t : list event) : list string :=
  t ≫= λ ev, match ev with Generate_content _ payload => [payload] | _ => [] end.

(** Is the event a request sent to an external service? *)
Definition is_request (ev : event) : bool :=
  match ev with
  | Get_transcript _ _ | Generate_content _ _
  | Videos_list _ | Comment_threads_list _ => true
  | _ => false
  end.

(** The requests of a run, in the order they were sent. *)
Definition requests (t : list event) : list event :=
  filter (λ ev, is_request ev) t.

End Py.

Import Py.

Notation "x <~ m ; k" := (bind m (λ x, k))
  (at level 20, m at level 100, k at level 200, only parsing).
Notation "m >> k" := (bind m (λ _, k))
  (at level 100, k at level 200, only parsing, right associativity).

(** Wrappers: each call is recorded before its answer is used. *)
Definition st_title (s : string) : M unit := emit (St_title s).
Definition st_text_input (label : string) : M unit := emit (St_text_input label).
Definition st_button (label : string) : M unit := emit (St_button label).
Definition st_image (url : string) : M unit := emit (St_image url).
Definition st_warning (s : string) : M unit := emit (St_warning s).
Definition st_error (s : string) : M unit := emit (St_error s).
Definition st_markdown (s : string) : M unit := emit (St_markdown s).
Definition st_write (s : string) : M unit := emit (St_write s).
Definition logging_error (s : string) : M unit := emit (Logging_error s).

Definition call_get_transcript (w : world) (video_id : string)
    (languages : option (list string)) : M (list segment) :=
  ([Get_transcript video_id languages], get_transcript w video_id languages).

Definition call_generate_content (w : world) (model payload : string) : M string :=
  ([Generate_content model payload], generate_content w model payload).

Definition call_videos_list (w : world) (video_id : string) : M (list video_item) :=
  ([Videos_list video_id], videos_list w video_id).

Definition call_comment_threads_list (w : world) (video_id : string)
    : M (list comment_thread) :=
  ([Comment_threads_list video_id], comment_threads_list w video_id).

(** ** app5.py: the video analysis tool *)

Module App5.

Definition prompt : string :=
"You are a YouTube video summarizer. You will take the transcript text
and summarize the entire video, providing the important summary in points
within 250 words. Please provide the summary of the text given here: ".

(** The dictionary [get_video_details] returns. *)
Record video_details : Type := VideoDetails {
  title : string;
  channel_title : string;
  views : Z;
  likes : Z;
  dislikes : Z;
  comments : Z;
  channel_id : string
}.

Section with_world.
Context (w : world).

Definition extract_transcript_details (youtube_video_url : string)
    : M (option string) :=
  let video_id := getitem (split "=" youtube_video_url) 1 in
  try_except
    (video_id <~ lift video_id;
     transcript_text <~ call_get_transcript w video_id (Some ["en"]);
     let transcript := join " " (text <$> transcript_text) in
     ret (Some transcript))
    (λ e,
       match e with
       | NoTranscriptFound _ =>
           Some (try_except
             (video_id <~ match video_id with
                          | Ok v => ret v
                          | Raise _ => raise (UnboundLocalError "video_id")
                          end;
              transcript_text <~ call_get_transcript w video_id None;
              let transcript := join " " (text <$> transcript_text) in
              ret (Some transcript))
             (λ _, Some (
                st_warning "No transcript available in any language for this video." >>
                ret None)))
       | TranscriptsDisabled _ =>
           Some (st_warning "Subtitles are disabled for this video." >>
                 ret None)
       | e =>
           Some (st_error ("An unexpected error occurred while fetching the transcript: "
                           +:+ str_exn e) >>
                 ret None)
       end).

Definition generate_gemini_content (transcript_text prompt : string) : M string :=
  call_generate_content w "gemini-pro" (prompt +:+ transcript_text).

Definition extract_keywords (text : string) (num_keywords : Z) : list string :=
  let doc := nlp w text in
  let keywords :=
    token_text <$> filter (λ t, is_alpha t && negb (is_stop t)) doc in
  slice_to (set_order w keywords) num_keywords.

Definition analyze_sentiment (text : string) : string * float * float :=
  let blob := textblob_sentiment w text in
  let polarity := polarity blob in
  let subjectivity := subjectivity blob in
  let sentiment :=
    if (0 <? polarity)%float then "Positive"
    else if (polarity <? 0)%float then "Negative"
    else "Neutral" in
  (sentiment, polarity, subjectivity).

(** [int(stats.get(key, 0))]. *)
Definition int_stat (stats : gmap string stat_value) (key : string) : result Z :=
  match default (StatInt 0) (stats !! key) with
  | StatInt z => Ok z
  | StatStr s => int_of_str w s
  end.

Definition get_video_details (video_id : string) : M (option video_details) :=
  items <~ call_videos_list w video_id;
  if negb (truthy_list items) then ret None
  else
    details <~ lift (getitem items 0);
    let stats := item_statistics details in
    let snippet := item_snippet details in
    views <~ lift (int_stat stats "viewCount");
    likes <~ lift (int_stat stats "likeCount");
    dislikes <~ lift (int_stat stats "dislikeCount");
    comments <~ lift (int_stat stats "commentCount");
    ret (Some {| title := snippet_title snippet;
                 channel_title := snippet_channelTitle snippet;
                 views := views;
                 likes := likes;
                 dislikes := dislikes;
                 comments := comments;
                 channel_id := snippet_channelId snippet |}).

Definition get_video_comments_with_sentiments (video_id : string)
    : M (gmap string (list string)) :=
  let sentiments : gmap string (list string) :=
    <["Positive" := []]> (<["Negative" := []]> (<["Neutral" := []]> ∅)) in
  items <~ call_comment_threads_list w video_id;
  for_each items
    (λ sentiments item,
       let comment := textOriginal item in
       let '(sentiment, _, _) := analyze_sentiment comment in
       bucket <~ lift (dict_getitem sentiments sentiment);
       ret (<[sentiment := bucket ++ [comment]]> sentiments))
    sentiments.

(** [video_details['...']] in the f-strings of the display: the value may
    be [None]. *)
Definition subscript_details (d : option video_details) : M video_details :=
  match d with
  | Some d => ret d
  | None => raise (TypeError "'NoneType' object is not subscriptable")
  end.

(** [for idx, comment in enumerate(l, start=1): st.write(f"{idx}. {comment}")] *)
Definition write_numbered (l : list string) : M unit :=
  for_each (imap (λ i c, (S i, c)) l)
    (λ _ '(idx, comment), st_write (pretty idx +:+ ". " +:+ comment))
    tt.

Definition skipped_warning : string :=
  "Transcript-based analysis skipped due to unavailable subtitles.".

(** "Extract transcript", "Generate summary", "Extract keywords": the first
    statements of the [try] block, up to the display of the keywords. *)
Definition transcript_analysis (youtube_link : string) : M unit :=
  transcript_text <~ extract_transcript_details youtube_link;
  match transcript_text with
  | None => st_warning skipped_warning
  | Some transcript_text =>
      if negb (truthy_str transcript_text) then st_warning skipped_warning
      else
        summary <~ generate_gemini_content transcript_text prompt;
        let keywords := extract_keywords transcript_text 10 in
        st_markdown "## Summary:" >>
        st_write summary >>
        st_markdown "### Keywords:" >>
        st_write (join ", " keywords)
  end.

(** "Display results": the last statements of the [try] block. *)
Definition display_results (video_details : option video_details)
    (comments_by_sentiment : gmap string (list string)) : M unit :=
  st_markdown "## Video Details:" >>
  d <~ subscript_details video_details;
  st_write ("**Title:** " +:+ title d) >>
  st_write ("**Channel:** " +:+ channel_title d) >>
  st_write ("**Views:** " +:+ pretty (views d)) >>
  st_write ("**Likes:** " +:+ pretty (likes d)) >>
  st_write ("**Dislikes:** " +:+ pretty (dislikes d)) >>
  st_write ("**Comments:** " +:+ pretty (comments d)) >>
  st_markdown "### Comment Sentiment Analysis:" >>
  positive <~ lift (dict_getitem comments_by_sentiment "Positive");
  st_write ("**Positive Comments:** " +:+ pretty (length positive)) >>
  negative <~ lift (dict_getitem comments_by_sentiment "Negative");
  st_write ("**Negative Comments:** " +:+ pretty (length negative)) >>
  neutral <~ lift (dict_getitem comments_by_sentiment "Neutral");
  st_write ("**Neutral Comments:** " +:+ pretty (length neutral)) >>
  st_markdown "### Negative Comments:" >>
  negative <~ lift (dict_getitem comments_by_sentiment "Negative");
  if truthy_list negative then write_numbered negative
  else st_write "No negative comments found.".

(** The statements of the [try] block of [if st.button("Analyze Video"):].
    [video_id] is the module level variable, assigned only when the link was
    not empty. *)
Definition analyze_body (youtube_link : string) (video_id : option string)
    : M unit :=
  transcript_analysis youtube_link >>
  vid <~ read_var (NameError "video_id") video_id;
  video_details <~ get_video_details vid;
  vid <~ read_var (NameError "video_id") video_id;
  comments_by_sentiment <~ get_video_comments_with_sentiments vid;
  display_results video_details comments_by_sentiment.

(** The [try] block with its single [except Exception as e]. *)
Definition on_analyze (youtube_link : string) (video_id : option string) : M unit :=
  try_except
    (analyze_body youtube_link video_id)
    (λ e, Some (st_error ("An error occurred: " +:+ str_exn e))).

(** The thumbnail block: [if youtube_link: video_id = ...; st.image(...)].
    Its value is the binding of the module level [video_id] afterwards. *)
Definition show_thumbnail (youtube_link : string) : M (option string) :=
  if truthy_str youtube_link then
    video_id <~ lift (getitem (split "=" youtube_link) 1);
    st_image ("http://img.youtube.com/vi/" +:+ video_id +:+ "/0.jpg") >>
    ret (Some video_id)
  else ret None.

(** One run of the script: the text of the input box and whether the button
    was pressed are what Streamlit hands to it. *)
Definition script (youtube_link : string) (analyze_video : bool) : M unit :=
  st_title "YouTube Video Analysis Tool" >>
  st_text_input "Enter YouTube Video Link:" >>
  video_id <~ show_thumbnail youtube_link;
  st_button "Analyze Video" >>
  if analyze_video then on_analyze youtube_link video_id else ret tt.

End with_world.
End App5.

(** ** app.py: the transcript summariser *)

Module App.

Definition prompt : string :=
"You are a YouTube video summarizer. You will take the transcript text
and summarize the entire video, providing the important points in a summary within 250 words.
Please summarize the following text: ".

Section with_world.
Context (w : world).

Definition extract_transcript_details (youtube_video_url : string)
    : M (option string) :=
  try_except
    (video_id <~ lift (getitem (split "=" youtube_video_url) 1);
     transcript_data <~ call_get_transcript w video_id None;
     let transcript := join " " (text <$> transcript_data) in
     ret (Some transcript))
    (λ e,
       match e with
       | TranscriptsDisabled _ =>
           Some (st_error "Transcripts are disabled for this video. Please try another video." >>
                 video_id <~ lift (getitem (split "=" youtube_video_url) 1);
                 logging_error ("Transcripts are disabled for video ID: " +:+ video_id) >>
                 ret None)
       | VideoUnavailable _ =>
           Some (st_error "The video is unavailable or does not exist. Please check the link." >>
                 logging_error ("Video unavailable for URL: " +:+ youtube_video_url) >>
                 ret None)
       | e =>
           Some (st_error ("An unexpected error occurred: " +:+ str_exn e) >>
                 logging_error ("Unexpected error: " +:+ str_exn e) >>
                 ret None)
       end).

Definition generate_gemini_content (transcript_text prompt : string)
    : M (option string) :=
  try_except
    (response_text <~ call_generate_content w "gemini-pro" (prompt +:+ transcript_text);
     ret (Some response_text))
    (λ e,
       Some (st_error "An error occurred while generating the summary. Please try again." >>
             logging_error ("Error in Gemini content generation: " +:+ str_exn e) >>
             ret None)).

(** The thumbnail block, with its [except IndexError]. *)
Definition show_thumbnail (youtube_link : string) : M unit :=
  if truthy_str youtube_link then
    try_except
      (video_id <~ lift (getitem (split "=" youtube_link) 1);
       st_image ("http://img.youtube.com/vi/" +:+ video_id +:+ "/0.jpg"))
      (λ e,
         match e with
         | IndexError =>
             Some (st_error "Invalid YouTube link. Please provide a valid URL.")
         | _ => None
         end)
  else ret tt.

(** The body of [if st.button("Get Detailed Notes"):]. *)
Definition on_get_notes (youtube_link : string) : M unit :=
  transcript_text <~ extract_transcript_details youtube_link;
  match transcript_text with
  | None => ret tt
  | Some transcript_text =>
      if truthy_str transcript_text then
        summary <~ generate_gemini_content transcript_text prompt;
        match summary with
        | None => ret tt
        | Some summary =>
            if truthy_str summary then
              st_markdown "## Detailed Notes:" >>
              st_write summary
            else ret tt
        end
      else ret tt
  end.

Definition script (youtube_link : string) (get_notes : bool) : M unit :=
  st_title "YouTube Transcript to Detailed Notes Converter" >>
  st_text_input "Enter YouTube Video Link:" >>
  show_thumbnail youtube_link >>
  st_button "Get Detailed Notes" >>
  if get_notes then on_get_notes youtube_link else ret tt.

End with_world.
End App.

(** ** Sample services, for running the scripts on concrete inputs *)

Module Sample.

Definition segments : list segment :=
  [Segment "hello" 0 1.5; Segment "world" 1.5 2].

Definition tokens : list token :=
  [Token "hello" true false; Token "the" true true; Token "hello" true false;
   Token "42" false false; Token "world" true false].

Definition score (text : string) : sentiment_score :=
  if String.eqb text "good" then Sentiment 0.5 0.75
  else if String.eqb text "bad" then Sentiment (-0.5) 0.25
  else Sentiment 0 0.

Definition video : video_item :=
  VideoItem (VideoSnippet "A title" "A channel" "UC1")
            (<["viewCount" := StatStr "12"]> ∅).

Definition threads : list comment_thread :=
  [CommentThread "good"; CommentThread "bad"; CommentThread "meh";
   CommentThread "bad"].

Definition parse (s : string) : result Z :=
  if String.eqb s "12" then Ok 12%Z
  else Raise (ValueError "invalid literal for int() with base 10").

(** A world given by the answers of the transcript service (with and without
    the language restriction) and of the two Data API requests. *)
Definition make (restricted unrestricted : result (list segment))
    (videos : result (list video_item))
    (comment_threads : result (list comment_thread)) : world :=
  {| get_transcript := λ _ languages,
       match languages with Some _ => restricted | None => unrestricted end;
     generate_content := λ _ payload, Ok ("Summary of: " +:+ payload);
     nlp := λ _, tokens;
     textblob_sentiment := score;
     videos_list := λ _, videos;
     comment_threads_list := λ _, comment_threads;
     set_order := remove_dups;
     int_of_str := parse |}.

(** English captions exist. *)
Definition english : world :=
  make (Ok segments) (Ok segments) (Ok [video]) (Ok threads).

(** Only captions in another language exist. *)
Definition other_language : world :=
  make (Raise (NoTranscriptFound "no transcript for ['en']")) (Ok segments)
       (Ok [video]) (Ok threads).

(** No captions at all. *)
Definition no_captions : world :=
  make (Raise (NoTranscriptFound "no transcript for ['en']"))
       (Raise (NoTranscriptFound "no transcript"))
       (Ok [video]) (Ok threads).

(** Captions switched off by the uploader. *)
Definition captions_disabled : world :=
  make (Raise (TranscriptsDisabled "subtitles are disabled"))
       (Raise (TranscriptsDisabled "subtitles are disabled"))
       (Ok [video]) (Ok threads).

(** The metadata request is refused, the comment request would succeed. *)
Definition metadata_refused : world :=
  make (Ok segments) (Ok segments)
       (Raise (OtherError "quotaExceeded")) (Ok threads).

(** The platform knows no such video. *)
Definition unknown_video : world :=
  make (Ok segments) (Ok segments) (Ok []) (Ok threads).

(** A world whose sentiment scorer answers the same score for every text. *)
Definition scoring (score : sentiment_score) : world :=
  {| get_transcript := λ _ _, Ok segments;
     generate_content := λ _ payload, Ok ("Summary of: " +:+ payload);
     nlp := λ _, tokens;
     textblob_sentiment := λ _, score;
     videos_list := λ _, Ok [video];
     comment_threads_list := λ _, Ok threads;
     set_order := remove_dups;
     int_of_str := parse |}.

(** The video was removed. *)
Definition video_removed : world :=
  make (Raise (VideoUnavailable "the video is no longer available"))
       (Raise (VideoUnavailable "the video is no longer available"))
       (Ok []) (Ok []).

(** Captions exist but hold no text. *)
Definition silent_video : world :=
  make (Ok []) (Ok []) (Ok [video]) (Ok threads).

(** The platform sends a like count that is not a number. *)
Definition odd_video : video_item :=
  VideoItem (VideoSnippet "A title" "A channel" "UC1")
            (<["viewCount" := StatInt 7]> (<["likeCount" := StatStr "many"]> ∅)).

Definition odd_count : world :=
  make (Ok segments) (Ok segments) (Ok [odd_video]) (Ok threads).

(** The summarizer answers [answer], whatever it is asked. *)
Definition with_summarizer (answer : result string) : world :=
  {| get_transcript := λ _ _, Ok segments;
     generate_content := λ _ _, answer;
     nlp := λ _, tokens;
     textblob_sentiment := score;
     videos_list := λ _, Ok [video];
     comment_threads_list := λ _, Ok threads;
     set_order := remove_dups;
     int_of_str := parse |}.

Definition watch_url : string := "https://www.youtube.com/watch?v=abc".
Definition watch_url_with_time : string :=
  "https://www.youtube.com/watch?v=abc&t=10".
Definition no_equals_url : string := "https://youtu.be/abc".

End Sample.

(** ** Facts about [split] and [join] *)

Section split_facts.
Variable sep : ascii.

Lemma split_nonempty s : split sep s ≠ [].
Proof.
  destruct s as [|c s]; simpl; [done|].
  destruct (Ascii.eqb c sep); [done|]. by destruct (split sep s).
Qed.

Lemma split_head s : head (split sep s) = Some (before_first sep s).
Proof.
  induction s as [|c s IH]; simpl; [done|].
  destruct (Ascii.eqb c sep); [done|].
  destruct (split sep s); simpl in *; [done|]. congruence.
Qed.

Lemma split_tail s :
  tail (split sep s) =
    match after_first sep s with
    | Some rest => split sep rest
    | None => []
    end.
Proof.
  induction s as [|c s IH]; simpl; [done|].
  destruct (Ascii.eqb c sep); [done|].
  pose proof (split_nonempty s).
  destruct (split sep s); simpl in *; [done|]. done.
Qed.

Lemma after_first_contains s :
  contains sep s = true ↔ is_Some (after_first sep s).
Proof.
  induction s as [|c s IH]; simpl.
  - split; [done|]. by intros [? ?].
  - destruct (Ascii.eqb c sep); [|done]. split; eauto.
Qed.

Lemma before_first_id s : contains sep s = false → before_first sep s = s.
Proof.
  induction s as [|c s IH]; simpl; [done|].
  destruct (Ascii.eqb c sep); [done|]. intros H. by rewrite IH.
Qed.

Lemma before_first_shorter s :
  contains sep s = true → before_first sep s ≠ s.
Proof.
  induction s as [|c s IH]; simpl; [done|].
  destruct (Ascii.eqb c sep); [done|]. intros H E.
  apply IH; [done|]. congruence.
Qed.

(** The second segment of the split is the text between the first and the
    second separator. *)
Lemma split_second s :
  split sep s !! 1 = before_first sep <$> after_first sep s.
Proof.
  pose proof (split_tail s) as Ht.
  destruct (split sep s) as [|a l] eqn:E; simpl in *.
  - by destruct (split_nonempty s).
  - subst l. destruct (after_first sep s) as [rest|]; simpl; [|done].
    pose proof (split_head rest) as Hh.
    by destruct (split sep rest).
Qed.

(** Joining the segments with the separator gives the string back. *)
Lemma join_split s : join (String sep "") (split sep s) = s.
Proof.
  induction s as [|c s IH]; simpl; [done|].
  destruct (Ascii.eqb_spec c sep) as [->|Hne].
  - pose proof (split_nonempty s).
    destruct (split sep s) eqn:E; [done|]. simpl in *. by rewrite IH.
  - pose proof (split_nonempty s).
    destruct (split sep s) as [|seg rest] eqn:E; [done|].
    simpl in *. destruct rest; simpl in *; by rewrite <- IH.
Qed.
Lemma split_without_sep s : contains sep s = false → split sep s = [s].
Proof.
  induction s as [|c s IH]; simpl; [done|].
  destruct (Ascii.eqb c sep); [done|]. intros H. by rewrite IH.
Qed.

Lemma split_app_sep s rest :
  contains sep s = false →
  split sep (s +:+ String sep rest) = s :: split sep rest.
Proof.
  induction s as [|c s IH]; simpl.
  - by rewrite Ascii.eqb_refl.
  - destruct (Ascii.eqb c sep); [done|]. intros H. by rewrite IH.
Qed.

(** Cutting the joined text at the separator gives the pieces back, in the
    same order, when no piece contains the separator. *)
Lemma split_join l :
  l ≠ [] →
  Forall (λ s, contains sep s = false) l →
  split sep (join (String sep "") l) = l.
Proof.
  intros Hne Hl. induction Hl as [|x l Hx Hl IH]; [done|].
  destruct l as [|y l]; simpl.
  - by apply split_without_sep.
  - change (x +:+ String sep "" +:+ ?r) with (x +:+ String sep r).
    rewrite split_app_sep by done. f_equal. by apply IH.
Qed.
End split_facts.

(** ** The monad: traces and outcomes of composed computations *)

Lemma trace_bind {A B} (m : M A) (k : A → M B) :
  trace (bind m k) =
    trace m ++ match outcome m with Ok a => trace (k a) | Raise _ => [] end.
Proof.
  destruct m as [t [a|e]]; simpl.
  - by destruct (k a).
  - by rewrite app_nil_r.
Qed.

Lemma outcome_bind {A B} (m : M A) (k : A → M B) :
  outcome (bind m k) =
    match outcome m with Ok a => outcome (k a) | Raise e => Raise e end.
Proof. destruct m as [t [a|e]]; simpl; [|done]. by destruct (k a). Qed.

Lemma trace_try_except {A} (body : M A) (handler : exn → option (M A)) :
  trace (try_except body handler) =
    trace body ++
      match outcome body with
      | Ok _ => []
      | Raise e => from_option trace [] (handler e)
      end.
Proof.
  destruct body as [t [a|e]]; simpl; [by rewrite app_nil_r|].
  destruct (handler e) as [[t' r]|]; simpl; [done|]. by rewrite app_nil_r.
Qed.

(** ** The transcript text *)

Section transcript_join.
Context (w : world).

(** C3.  The transcript text is the [text] fields of the segments, in the
    order the service sent them, with one space between two consecutive
    segments and nothing before the first or after the last: both variants
    of [extract_transcript_details] return exactly that for the segments they
    were given, three segments a, b, c give "a b c", and no segment gives the
    empty string. *)
Theorem transcript_join_in_receipt_order :
  (∀ url vid segs,
     split "=" url !! 1 = Some vid →
     get_transcript w vid (Some ["en"]) = Ok segs →
     outcome (App5.extract_transcript_details w url)
       = Ok (Some (join " " (text <$> segs))))
  ∧ (∀ url vid segs,
     split "=" url !! 1 = Some vid →
     get_transcript w vid None = Ok segs →
     outcome (App.extract_transcript_details w url)
       = Ok (Some (join " " (text <$> segs))))
  ∧ join " " (text <$> []) = ""
  ∧ (∀ s, join " " (text <$> [s]) = text s)
  ∧ (∀ s s' segs,
       join " " (text <$> s :: s' :: segs)
         = text s +:+ " " +:+ join " " (text <$> s' :: segs))
  ∧ (∀ t1 d1 t2 d2 t3 d3,
       join " " (text <$> [Segment "a" t1 d1; Segment "b" t2 d2; Segment "c" t3 d3])
         = "a b c")
  ∧ (∀ segs,
       segs ≠ [] →
       Forall (λ s, contains " " (text s) = false) segs →
       split " " (join " " (text <$> segs)) = text <$> segs).
Proof.
  split_and!; [| |done..|].
  3:{ intros segs Hne Hsp. apply (split_join " "%char).
      - by destruct segs.
      - by apply Forall_fmap. }
  - intros url vid segs Hvid Hsegs.
    unfold App5.extract_transcript_details, getitem, call_get_transcript.
    rewrite Hvid. simpl. by rewrite Hsegs.
  - intros url vid segs Hvid Hsegs.
    unfold App.extract_transcript_details, getitem, call_get_transcript.
    rewrite Hvid. simpl. by rewrite Hsegs.
Qed.

End transcript_join.

Lemma transcript_join_in_receipt_order_witness :
  outcome (App5.extract_transcript_details Sample.english Sample.watch_url)
    = Ok (Some "hello world")
  ∧ outcome (App.extract_transcript_details Sample.english Sample.watch_url)
    = Ok (Some "hello world")
  ∧ split " " "hello world" = ["hello"; "world"].
Proof.
  pose proof (transcript_join_in_receipt_order Sample.english)
    as (H5 & H1 & _ & _ & _ & _ & Hsplit).
  split_and!.
  - exact (H5 Sample.watch_url "abc" Sample.segments eq_refl eq_refl).
  - exact (H1 Sample.watch_url "abc" Sample.segments eq_refl eq_refl).
  - apply (Hsplit Sample.segments); [done|].
    repeat constructor.
Defined.

(** ** The video identifier *)

(** C4, as the claim states it, fails: with a second [=] in the link the
    identifier is cut at it and is not the whole text after the first. *)
Lemma video_id_is_not_all_after_first_equals :
  contains "=" Sample.watch_url_with_time = true
  ∧ after_first "=" Sample.watch_url_with_time = Some "abc&t=10"
  ∧ getitem (split "=" Sample.watch_url_with_time) 1 = Ok "abc&t"
  ∧ getitem (split "=" Sample.watch_url_with_time) 1 ≠ Ok "abc&t=10".
Proof. by split_and!. Qed.

(** C4, amended.  For a link with at least one [=], the identifier is the
    second segment of the split at [=]: the text after the first [=] up to
    the next [=], which is all of the text after the first [=] exactly when
    that text has no [=].  It is the identifier the thumbnail and both
    transcript requests use. *)
Theorem video_id_is_second_segment (w : world) (url : string) :
  contains "=" url = true →
  ∃ rest,
    after_first "=" url = Some rest
    ∧ getitem (split "=" url) 1 = Ok (before_first "=" rest)
    ∧ (before_first "=" rest = rest ↔ contains "=" rest = false)
    ∧ App5.show_thumbnail url
        = ([St_image ("http://img.youtube.com/vi/" +:+ before_first "=" rest
                       +:+ "/0.jpg")],
           Ok (Some (before_first "=" rest)))
    ∧ App.show_thumbnail url
        = ([St_image ("http://img.youtube.com/vi/" +:+ before_first "=" rest
                       +:+ "/0.jpg")],
           Ok tt)
    ∧ head (trace (App5.extract_transcript_details w url))
        = Some (Get_transcript (before_first "=" rest) (Some ["en"]))
    ∧ head (trace (App.extract_transcript_details w url))
        = Some (Get_transcript (before_first "=" rest) None).
Proof.
  intros Hc.
  destruct (proj1 (after_first_contains _ _) Hc) as [rest Hrest].
  assert (split "=" url !! 1 = Some (before_first "=" rest)) as Hid
    by (by rewrite split_second, Hrest).
  assert (truthy_str url = true) as Hurl by (by destruct url).
  exists rest. split_and!.
  - done.
  - unfold getitem. by rewrite Hid.
  - split.
    + intros E. destruct (contains "=" rest) eqn:Hr; [|done].
      by destruct (before_first_shorter _ _ Hr).
    + apply before_first_id.
  - unfold App5.show_thumbnail, getitem. by rewrite Hurl, Hid.
  - unfold App.show_thumbnail, getitem. by rewrite Hurl, Hid.
  - unfold App5.extract_transcript_details, getitem, call_get_transcript.
    rewrite Hid. simpl.
    by destruct (get_transcript w _ (Some _)) as [?|[]]; simpl;
      try destruct (get_transcript w _ None).
  - unfold App.extract_transcript_details, getitem, call_get_transcript.
    rewrite Hid. simpl.
    by destruct (get_transcript w _ None) as [?|[]]; simpl; rewrite ?Hid.
Qed.

Lemma video_id_is_second_segment_witness :
  ∃ rest,
    after_first "=" Sample.watch_url = Some rest
    ∧ getitem (split "=" Sample.watch_url) 1 = Ok (before_first "=" rest)
    ∧ (before_first "=" rest = rest ↔ contains "=" rest = false)
    ∧ App5.show_thumbnail Sample.watch_url
        = ([St_image ("http://img.youtube.com/vi/" +:+ before_first "=" rest
                       +:+ "/0.jpg")],
           Ok (Some (before_first "=" rest)))
    ∧ App.show_thumbnail Sample.watch_url
        = ([St_image ("http://img.youtube.com/vi/" +:+ before_first "=" rest
                       +:+ "/0.jpg")],
           Ok tt)
    ∧ head (trace (App5.extract_transcript_details Sample.english Sample.watch_url))
        = Some (Get_transcript (before_first "=" rest) (Some ["en"]))
    ∧ head (trace (App.extract_transcript_details Sample.english Sample.watch_url))
        = Some (Get_transcript (before_first "=" rest) None).
Proof.
  exact (video_id_is_second_segment Sample.english Sample.watch_url eq_refl).
Defined.

(** ** The transcript fallback of app5.py *)

Section transcript_fallback.
Context (w : world) (url vid : string).
Hypothesis url_has_id : split "=" url !! 1 = Some vid.

(** C1.  For the identifier [vid] of the link: when the request restricted
    to English raises [NoTranscriptFound] and the unrestricted one answers,
    [extract_transcript_details] returns the joined text of the unrestricted
    answer and shows no message; when the unrestricted request fails too, it
    warns that no transcript is available in any language and returns
    [None]; when the service raises [TranscriptsDisabled], it warns that
    subtitles are disabled and returns [None]; the two warnings differ. *)
Theorem transcript_fallback_policy :
  (∀ msg segs,
     get_transcript w vid (Some ["en"]) = Raise (NoTranscriptFound msg) →
     get_transcript w vid None = Ok segs →
     App5.extract_transcript_details w url
       = ([Get_transcript vid (Some ["en"]); Get_transcript vid None],
          Ok (Some (join " " (text <$> segs)))))
  ∧ (∀ msg e,
     get_transcript w vid (Some ["en"]) = Raise (NoTranscriptFound msg) →
     get_transcript w vid None = Raise e →
     App5.extract_transcript_details w url
       = ([Get_transcript vid (Some ["en"]); Get_transcript vid None;
           St_warning "No transcript available in any language for this video."],
          Ok None))
  ∧ (∀ msg,
     get_transcript w vid (Some ["en"]) = Raise (TranscriptsDisabled msg) →
     App5.extract_transcript_details w url
       = ([Get_transcript vid (Some ["en"]);
           St_warning "Subtitles are disabled for this video."],
          Ok None))
  ∧ St_warning "No transcript available in any language for this video."
      ≠ St_warning "Subtitles are disabled for this video.".
Proof.
  split_and!; [intros msg segs Hen Hany|intros msg e Hen Hany|intros msg Hen|done];
    unfold App5.extract_transcript_details, getitem, call_get_transcript;
    rewrite url_has_id; simpl; rewrite Hen; simpl; by rewrite ?Hany.
Qed.

End transcript_fallback.

Lemma transcript_fallback_policy_witness :
  App5.extract_transcript_details Sample.other_language Sample.watch_url
    = ([Get_transcript "abc" (Some ["en"]); Get_transcript "abc" None],
       Ok (Some "hello world"))
  ∧ App5.extract_transcript_details Sample.no_captions Sample.watch_url
    = ([Get_transcript "abc" (Some ["en"]); Get_transcript "abc" None;
        St_warning "No transcript available in any language for this video."],
       Ok None)
  ∧ App5.extract_transcript_details Sample.captions_disabled Sample.watch_url
    = ([Get_transcript "abc" (Some ["en"]);
        St_warning "Subtitles are disabled for this video."],
       Ok None).
Proof.
  split_and!.
  - exact (proj1 (transcript_fallback_policy
             Sample.other_language Sample.watch_url "abc" eq_refl)
             _ Sample.segments eq_refl eq_refl).
  - exact (proj1 (proj2 (transcript_fallback_policy
             Sample.no_captions Sample.watch_url "abc" eq_refl))
             _ _ eq_refl eq_refl).
  - exact (proj1 (proj2 (proj2 (transcript_fallback_policy
             Sample.captions_disabled Sample.watch_url "abc" eq_refl)))
             _ eq_refl).
Defined.

(** ** Sentiment classification *)

(** Comparing a binary64 float with zero: the three tests exclude one
    another. *)
Lemma float_negative_not_positive p :
  (p <? 0)%float = true → (0 <? p)%float = false.
Proof.
  rewrite !FloatAxioms.ltb_spec. change (Prim2SF 0) with (S754_zero false).
  unfold SFltb. destruct (Prim2SF p) as [[]|[]| |[] ? ?]; simpl; congruence.
Qed.

Lemma float_zero_not_signed p :
  (p =? 0)%float = true → (0 <? p)%float = false ∧ (p <? 0)%float = false.
Proof.
  rewrite !FloatAxioms.ltb_spec, FloatAxioms.eqb_spec. change (Prim2SF 0) with (S754_zero false).
  unfold SFltb, SFeqb.
  destruct (Prim2SF p) as [[]|[]| |[] ? ?]; simpl; intuition congruence.
Qed.

Section sentiment.
Context (w : world) (text : string).
Hypothesis polarity_contract :
  polarity_in_range (polarity (textblob_sentiment w text)).
Hypothesis subjectivity_contract :
  subjectivity_in_range (subjectivity (textblob_sentiment w text)).

(** C6.  [analyze_sentiment] returns the two scores of the scorer unchanged,
    with the label Positive when the polarity is above zero, Negative when it
    is below zero and Neutral when it equals zero; any text with the same
    polarity gets the same label, whatever its subjectivity and however close
    to zero the polarity is; and the returned scores are within the ranges
    the scorer keeps. *)
Theorem sentiment_label_by_polarity_sign :
  ∃ label p s,
    App5.analyze_sentiment w text = (label, p, s)
    ∧ p = polarity (textblob_sentiment w text)
    ∧ s = subjectivity (textblob_sentiment w text)
    ∧ ((0 <? p)%float = true → label = "Positive")
    ∧ ((p <? 0)%float = true → label = "Negative")
    ∧ ((p =? 0)%float = true → label = "Neutral")
    ∧ (∀ w' text',
         polarity (textblob_sentiment w' text') = p →
         (App5.analyze_sentiment w' text').1.1 = label)
    ∧ polarity_in_range p
    ∧ subjectivity_in_range s.
Proof.
  eexists _, _, _. split; [reflexivity|].
  split_and!; try done.
  - by intros ->.
  - intros Hneg. by rewrite (float_negative_not_positive _ Hneg), Hneg.
  - intros Hz. by destruct (float_zero_not_signed _ Hz) as [-> ->].
  - intros w' text' Hp. unfold App5.analyze_sentiment. simpl. by rewrite Hp.
Qed.

End sentiment.

Lemma sentiment_label_by_polarity_sign_witness :
  ∃ label p s,
    App5.analyze_sentiment Sample.english "good" = (label, p, s)
    ∧ p = polarity (textblob_sentiment Sample.english "good")
    ∧ s = subjectivity (textblob_sentiment Sample.english "good")
    ∧ ((0 <? p)%float = true → label = "Positive")
    ∧ ((p <? 0)%float = true → label = "Negative")
    ∧ ((p =? 0)%float = true → label = "Neutral")
    ∧ (∀ w' text',
         polarity (textblob_sentiment w' text') = p →
         (App5.analyze_sentiment w' text').1.1 = label)
    ∧ polarity_in_range p
    ∧ subjectivity_in_range s.
Proof.
  apply (sentiment_label_by_polarity_sign Sample.english "good");
    split; reflexivity.
Defined.

(** The three scores the specification lists, and the smallest positive
    float: no band around zero. *)
Example sentiment_of_listed_polarities :
  App5.analyze_sentiment (Sample.scoring (Sentiment 0 0.5)) "a"
    = ("Neutral", 0%float, 0.5%float)
  ∧ App5.analyze_sentiment (Sample.scoring (Sentiment 0x1.3333333333333p-2 0)) "a"
    = ("Positive", 0x1.3333333333333p-2%float, 0%float)
  ∧ App5.analyze_sentiment (Sample.scoring (Sentiment (-0x1.47ae147ae147bp-7) 1)) "a"
    = ("Negative", (-0x1.47ae147ae147bp-7)%float, 1%float)
  ∧ App5.analyze_sentiment (Sample.scoring (Sentiment 0x1p-1074 1)) "a"
    = ("Positive", 0x1p-1074%float, 1%float).
Proof. by split_and!. Qed.

(** ** Keyword extraction *)

Lemma remove_dups_set_iteration : set_iteration remove_dups.
Proof.
  intros l. split; [apply NoDup_remove_dups|].
  intros x. apply elem_of_remove_dups.
Qed.

Section keywords.
Context (w : world).
Hypothesis set_order_spec : set_iteration (set_order w).

(** C7.  For a text and a maximum count (a count: not negative),
    [extract_keywords] returns at most that many strings, no string twice,
    each the text of a token of the document flagged alphabetic and not a
    stopword; the list is a prefix of a duplicate-free enumeration of all
    such token texts, so its length is the smaller of the count and the
    number of distinct kept token texts: the duplicates go before the cut. *)
Theorem keywords_bounded_distinct_filtered (text : string) (num_keywords : Z) :
  (0 ≤ num_keywords)%Z →
  (Z.of_nat (length (App5.extract_keywords w text num_keywords)) ≤ num_keywords)%Z
  ∧ NoDup (App5.extract_keywords w text num_keywords)
  ∧ (∀ k, k ∈ App5.extract_keywords w text num_keywords →
          ∃ t, t ∈ nlp w text ∧ token_text t = k ∧ kept_token t)
  ∧ (∃ distinct,
       NoDup distinct
       ∧ (∀ k, k ∈ distinct ↔ ∃ t, t ∈ nlp w text ∧ token_text t = k ∧ kept_token t)
       ∧ App5.extract_keywords w text num_keywords
           = take (Z.to_nat num_keywords) distinct)
  ∧ length (App5.extract_keywords w text num_keywords)
      = Z.to_nat num_keywords `min`
        length (remove_dups
          (token_text <$> filter (λ t, is_alpha t && negb (is_stop t)) (nlp w text))).
Proof.
  intros Hn. unfold App5.extract_keywords, slice_to.
  destruct (Z.leb_spec 0 num_keywords) as [_|?]; [|lia].
  set (keywords := token_text <$> filter _ (nlp w text)).
  destruct (set_order_spec keywords) as [Hnd Hel].
  assert (∀ k, k ∈ keywords ↔
               ∃ t, t ∈ nlp w text ∧ token_text t = k ∧ kept_token t) as Hkw.
  { intros k. unfold keywords. rewrite list_elem_of_fmap. split.
    - intros (t & -> & Ht). apply list_elem_of_filter in Ht as [Hp Ht].
      exists t. split_and!; [done..|].
      apply andb_prop_elim in Hp as [Ha Hs]. split.
      + by apply Is_true_eq_true.
      + apply negb_prop_elim in Hs. by destruct (is_stop t).
    - intros (t & Ht & <- & Ha & Hs). exists t. split; [done|].
      apply list_elem_of_filter. split; [|done]. by rewrite Ha, Hs. }
  split_and!.
  - rewrite length_take. lia.
  - exact (sublist_NoDup _ _ Hnd (sublist_take _ _)).
  - intros k Hk. apply Hkw, Hel. by eapply subseteq_take.
  - exists (set_order w keywords). split_and!; [done| |done].
    intros k. by rewrite Hel.
  - rewrite length_take. f_equal. apply Permutation_length.
    apply NoDup_Permutation; [done|apply NoDup_remove_dups|].
    intros k. by rewrite Hel, elem_of_remove_dups.
Qed.

End keywords.

Lemma keywords_bounded_distinct_filtered_witness :
  (Z.of_nat (length (App5.extract_keywords Sample.english "hello the hello 42 world" 1)) ≤ 1)%Z
  ∧ NoDup (App5.extract_keywords Sample.english "hello the hello 42 world" 1)
  ∧ (∀ k, k ∈ App5.extract_keywords Sample.english "hello the hello 42 world" 1 →
          ∃ t, t ∈ nlp Sample.english "hello the hello 42 world"
               ∧ token_text t = k ∧ kept_token t)
  ∧ (∃ distinct,
       NoDup distinct
       ∧ (∀ k, k ∈ distinct ↔
               ∃ t, t ∈ nlp Sample.english "hello the hello 42 world"
                    ∧ token_text t = k ∧ kept_token t)
       ∧ App5.extract_keywords Sample.english "hello the hello 42 world" 1
           = take (Z.to_nat 1) distinct)
  ∧ length (App5.extract_keywords Sample.english "hello the hello 42 world" 1)
      = Z.to_nat 1 `min`
        length (remove_dups
          (token_text <$> filter (λ t, is_alpha t && negb (is_stop t))
                            (nlp Sample.english "hello the hello 42 world"))).
Proof.
  apply (keywords_bounded_distinct_filtered Sample.english
           remove_dups_set_iteration "hello the hello 42 world" 1).
  lia.
Defined.

(** The sample document has two distinct keywords; a negative bound is not a
    count: the slice then drops from the end instead. *)
Example keywords_of_sample :
  App5.extract_keywords Sample.english "hello the hello 42 world" 10
    = ["hello"; "world"]
  ∧ App5.extract_keywords Sample.english "hello the hello 42 world" 1
    = ["hello"]
  ∧ App5.extract_keywords Sample.english "hello the hello 42 world" (-1)
    = ["hello"].
Proof. by split_and!. Qed.

(** ** Video metadata *)

Lemma int_stat_absent (w : world) (stats : gmap string stat_value) key :
  stats !! key = None → App5.int_stat w stats key = Ok 0%Z.
Proof. unfold App5.int_stat. by intros ->. Qed.

Lemma int_stat_convertible (w : world) (stats : gmap string stat_value) key :
  (∀ s, stats !! key = Some (StatStr s) → ∃ z, int_of_str w s = Ok z) →
  ∃ z, App5.int_stat w stats key = Ok z.
Proof.
  unfold App5.int_stat. intros H.
  destruct (stats !! key) as [[z|s]|]; simpl; eauto.
Qed.

Section video_details.
Context (w : world) (video_id : string).

(** C8.  When the platform answers with no item, [get_video_details] returns
    [None] (the "not found" result) and raises nothing.  When it returns a
    record, the record is made from the first item, and each of views, likes,
    dislikes and comments whose key is absent from the item's statistics is
    exactly 0.  A record is returned whenever there is an item and every
    statistic that is present converts to an integer. *)
Theorem video_details_not_found_and_zero_defaults :
  (videos_list w video_id = Ok [] →
     App5.get_video_details w video_id = ([Videos_list video_id], Ok None))
  ∧ (∀ d,
       outcome (App5.get_video_details w video_id) = Ok (Some d) →
       ∃ item rest,
         videos_list w video_id = Ok (item :: rest)
         ∧ App5.title d = snippet_title (item_snippet item)
         ∧ App5.channel_title d = snippet_channelTitle (item_snippet item)
         ∧ App5.channel_id d = snippet_channelId (item_snippet item)
         ∧ (item_statistics item !! "viewCount" = None → App5.views d = 0%Z)
         ∧ (item_statistics item !! "likeCount" = None → App5.likes d = 0%Z)
         ∧ (item_statistics item !! "dislikeCount" = None → App5.dislikes d = 0%Z)
         ∧ (item_statistics item !! "commentCount" = None → App5.comments d = 0%Z))
  ∧ (∀ item rest,
       videos_list w video_id = Ok (item :: rest) →
       (∀ key s, item_statistics item !! key = Some (StatStr s) →
                 ∃ z, int_of_str w s = Ok z) →
       ∃ d, App5.get_video_details w video_id
              = ([Videos_list video_id], Ok (Some d))).
Proof.
  unfold App5.get_video_details, call_videos_list. split_and!.
  - by intros ->.
  - intros d. destruct (videos_list w video_id) as [[|item rest]|e]; simpl;
      [done| |done].
    destruct (App5.int_stat w _ "viewCount") as [v|] eqn:Hv; simpl; [|done].
    destruct (App5.int_stat w _ "likeCount") as [l|] eqn:Hl; simpl; [|done].
    destruct (App5.int_stat w _ "dislikeCount") as [dl|] eqn:Hd; simpl; [|done].
    destruct (App5.int_stat w _ "commentCount") as [c|] eqn:Hc; simpl; [|done].
    intros [= <-]. exists item, rest. simpl. split_and!; try done.
    + intros Habs. rewrite (int_stat_absent _ _ _ Habs) in Hv. congruence.
    + intros Habs. rewrite (int_stat_absent _ _ _ Habs) in Hl. congruence.
    + intros Habs. rewrite (int_stat_absent _ _ _ Habs) in Hd. congruence.
    + intros Habs. rewrite (int_stat_absent _ _ _ Habs) in Hc. congruence.
  - intros item rest -> Hconv. simpl.
    destruct (int_stat_convertible w (item_statistics item) "viewCount")
      as [v ->]; [by eauto|].
    destruct (int_stat_convertible w (item_statistics item) "likeCount")
      as [l ->]; [by eauto|].
    destruct (int_stat_convertible w (item_statistics item) "dislikeCount")
      as [dl ->]; [by eauto|].
    destruct (int_stat_convertible w (item_statistics item) "commentCount")
      as [c ->]; [by eauto|].
    simpl. eauto.
Qed.

End video_details.

Lemma video_details_not_found_and_zero_defaults_witness :
  App5.get_video_details Sample.unknown_video "abc"
    = ([Videos_list "abc"], Ok None)
  ∧ (∃ d, App5.get_video_details Sample.english "abc"
            = ([Videos_list "abc"], Ok (Some d))
          ∧ App5.likes d = 0%Z ∧ App5.dislikes d = 0%Z ∧ App5.comments d = 0%Z).
Proof.
  split.
  - exact (proj1 (video_details_not_found_and_zero_defaults
                    Sample.unknown_video "abc") eq_refl).
  - destruct (video_details_not_found_and_zero_defaults Sample.english "abc")
      as (_ & Hzero & Hsome).
    destruct (Hsome Sample.video [] eq_refl) as [d Hd].
    { intros key s Hs. exists 12%Z.
      destruct (decide (key = "viewCount")) as [->|Hne].
      - by injection Hs as <-.
      - unfold Sample.video in Hs. simpl in Hs.
        by rewrite lookup_insert_ne in Hs. }
    exists d. split; [done|].
    destruct (Hzero d) as (item & rest & Hv & _ & _ & _ & _ & Hl & Hdl & Hc).
    { by rewrite Hd. }
    injection Hv as <- <-. split_and!; [by apply Hl|by apply Hdl|by apply Hc].
Defined.

(** The record made for the sample video: its only statistic is the view
    count, sent as a string. *)
Example video_details_of_sample :
  App5.get_video_details Sample.english "abc"
    = ([Videos_list "abc"],
       Ok (Some (App5.VideoDetails "A title" "A channel" 12 0 0 0 "UC1"))).
Proof. reflexivity. Qed.

(** ** Comments by sentiment *)

Lemma analyze_sentiment_label (w : world) (text : string) :
  (App5.analyze_sentiment w text).1.1 ∈ ["Positive"; "Negative"; "Neutral"].
Proof.
  unfold App5.analyze_sentiment. simpl.
  destruct (_ <? _)%float; [set_solver|].
  destruct (_ <? _)%float; set_solver.
Qed.

Section bucketing.
Context (w : world).
Implicit Types (sentiments : gmap string (list string)) (label : string).

(** The body of the loop of [get_video_comments_with_sentiments]. *)
Let body sentiments (item : comment_thread) : M (gmap string (list string)) :=
  let comment := textOriginal item in
  let '(sentiment, _, _) := App5.analyze_sentiment w comment in
  bucket <~ lift (dict_getitem sentiments sentiment);
  ret (<[sentiment := bucket ++ [comment]]> sentiments).

(** The comments of [threads] that get [label], in the order of [threads]. *)
Let labelled label (threads : list comment_thread) : list string :=
  filter (λ c, (App5.analyze_sentiment w c).1.1 = label) (textOriginal <$> threads).

(** The loop appends to each bucket the comments of its label, in order, and
    neither raises nor shows anything, provided the three keys exist. *)
Lemma bucketing_loop threads : ∀ sentiments,
  (∀ label, label ∈ ["Positive"; "Negative"; "Neutral"] →
            is_Some (sentiments !! label)) →
  ∃ sentiments',
    for_each threads body sentiments = ([], Ok sentiments')
    ∧ ∀ label, sentiments' !! label
               = (λ b, b ++ labelled label threads) <$> sentiments !! label.
Proof.
  induction threads as [|item threads IH]; intros sentiments Hkeys.
  - exists sentiments. split; [done|]. intros label. unfold labelled. simpl.
    destruct (sentiments !! label); simpl; [|done]. by rewrite app_nil_r.
  - pose proof (analyze_sentiment_label w (textOriginal item)) as Hin.
    simpl. unfold body at 1.
    destruct (App5.analyze_sentiment w (textOriginal item))
      as [[sentiment p] s] eqn:Hlab. simpl in Hin.
    destruct (Hkeys sentiment Hin) as [bucket Hbucket].
    unfold dict_getitem. rewrite Hbucket. simpl.
    destruct (IH (<[sentiment := bucket ++ [textOriginal item]]> sentiments))
      as (sentiments' & Hrun & Hlook).
    { intros label Hl. destruct (decide (sentiment = label)) as [->|Hne].
      - rewrite lookup_insert_eq. eauto.
      - rewrite lookup_insert_ne by done. by apply Hkeys. }
    exists sentiments'. fold body. rewrite Hrun. split; [done|].
    intros label. rewrite Hlook. unfold labelled. rewrite fmap_cons, filter_cons.
    rewrite Hlab. simpl.
    destruct (decide (sentiment = label)) as [->|Hne].
    + rewrite lookup_insert_eq, Hbucket. simpl. by rewrite <- app_assoc.
    + by rewrite lookup_insert_ne.
Qed.

Lemma labelled_lengths threads :
  length (labelled "Positive" threads) + length (labelled "Negative" threads)
    + length (labelled "Neutral" threads) = length threads.
Proof.
  unfold labelled. induction threads as [|item threads IH]; [done|].
  pose proof (analyze_sentiment_label w (textOriginal item)) as Hin.
  rewrite fmap_cons, !filter_cons.
  repeat (apply elem_of_cons in Hin as [Hin|Hin]);
    [rewrite Hin; repeat case_decide; try done; cbn [length]; lia..|].
  by apply elem_of_nil in Hin.
Qed.

Context (video_id : string) (threads : list comment_thread).
Hypothesis fetched : comment_threads_list w video_id = Ok threads.

Lemma comments_buckets_exist :
  ∃ buckets,
    App5.get_video_comments_with_sentiments w video_id
      = ([Comment_threads_list video_id], Ok buckets).
Proof.
  set (initial := <["Positive" := []]> (<["Negative" := []]> (<["Neutral" := []]> ∅))
                  : gmap string (list string)).
  change (App5.get_video_comments_with_sentiments w video_id)
    with (bind (call_comment_threads_list w video_id)
               (λ items, for_each items body initial)).
  unfold call_comment_threads_list. rewrite fetched. unfold bind at 1.
  destruct (bucketing_loop threads initial) as (buckets & -> & _); [|by eauto].
  intros label Hl. unfold initial.
  repeat (apply elem_of_cons in Hl as [->|Hl]); [by eauto..|].
  by apply elem_of_nil in Hl.
Qed.

Lemma comments_buckets_sizes :
  ∃ buckets positive negative neutral,
    App5.get_video_comments_with_sentiments w video_id
      = ([Comment_threads_list video_id], Ok buckets)
    ∧ buckets !! "Positive" = Some positive
    ∧ buckets !! "Negative" = Some negative
    ∧ buckets !! "Neutral" = Some neutral
    ∧ length positive + length negative + length neutral = length threads.
Proof.
  set (initial := <["Positive" := []]> (<["Negative" := []]> (<["Neutral" := []]> ∅))
                  : gmap string (list string)).
  change (App5.get_video_comments_with_sentiments w video_id)
    with (bind (call_comment_threads_list w video_id)
               (λ items, for_each items body initial)).
  unfold call_comment_threads_list. rewrite fetched. unfold bind at 1.
  destruct (bucketing_loop threads initial) as (buckets & -> & Hlook).
  { intros label Hl. unfold initial.
    repeat (apply elem_of_cons in Hl as [->|Hl]); [by eauto..|].
    by apply elem_of_nil in Hl. }
  exists buckets, (labelled "Positive" threads), (labelled "Negative" threads),
    (labelled "Neutral" threads).
  split_and!; [done|by rewrite Hlook..|apply labelled_lengths].
Qed.

(** C10.  For the comments the platform sent: [get_video_comments_with_sentiments]
    raises nothing (every label [analyze_sentiment] gives is one of the three
    keys), its dictionary has exactly the keys Positive, Negative and Neutral,
    the bucket of a label holds exactly the comments that got that label, in
    the order they were received, so every comment is in the bucket of its
    label and in no other, and the three sizes add up to the number of
    comments. *)
Theorem comments_bucketed_by_label :
  (∀ text, (App5.analyze_sentiment w text).1.1 ∈ ["Positive"; "Negative"; "Neutral"])
  ∧ ∃ buckets positive negative neutral,
      App5.get_video_comments_with_sentiments w video_id
        = ([Comment_threads_list video_id], Ok buckets)
      ∧ dom buckets = {["Positive"; "Negative"; "Neutral"]}
      ∧ buckets !! "Positive" = Some positive
      ∧ buckets !! "Negative" = Some negative
      ∧ buckets !! "Neutral" = Some neutral
      ∧ (∀ label bucket,
           buckets !! label = Some bucket →
           bucket = filter (λ c, (App5.analyze_sentiment w c).1.1 = label)
                           (textOriginal <$> threads))
      ∧ (∀ label bucket c,
           buckets !! label = Some bucket →
           c ∈ bucket ↔
             c ∈ textOriginal <$> threads
             ∧ (App5.analyze_sentiment w c).1.1 = label)
      ∧ length positive + length negative + length neutral = length threads.
Proof.
  split; [apply analyze_sentiment_label|].
  set (initial := <["Positive" := []]> (<["Negative" := []]> (<["Neutral" := []]> ∅))
                  : gmap string (list string)).
  change (App5.get_video_comments_with_sentiments w video_id)
    with (bind (call_comment_threads_list w video_id)
               (λ items, for_each items body initial)).
  unfold call_comment_threads_list. rewrite fetched. unfold bind at 1.
  destruct (bucketing_loop threads initial) as (buckets & Hrun & Hlook).
  { intros label Hl. unfold initial.
    repeat (apply elem_of_cons in Hl as [->|Hl]); [by eauto..|].
    by apply elem_of_nil in Hl. }
  rewrite Hrun.
  exists buckets, (labelled "Positive" threads), (labelled "Negative" threads),
    (labelled "Neutral" threads).
  assert (∀ label bucket, buckets !! label = Some bucket →
                          bucket = labelled label threads) as Hbucket.
  { intros label bucket. rewrite Hlook. unfold initial.
    destruct (decide (label = "Positive")) as [->|?]; [by intros [= <-]|].
    destruct (decide (label = "Negative")) as [->|?]; [by intros [= <-]|].
    destruct (decide (label = "Neutral")) as [->|?]; [by intros [= <-]|].
    by rewrite !lookup_insert_ne, lookup_empty. }
  split_and!; [done| |by rewrite Hlook..|done| |apply labelled_lengths].
  - apply set_eq. intros label. rewrite elem_of_dom, Hlook, fmap_is_Some.
    rewrite <- elem_of_dom. unfold initial. rewrite !dom_insert_L. set_solver.
  - intros label bucket c Hb. rewrite (Hbucket _ _ Hb). unfold labelled.
    rewrite list_elem_of_filter. tauto.
Qed.

End bucketing.

Lemma comments_bucketed_by_label_witness :
  (∀ text, (App5.analyze_sentiment Sample.english text).1.1
             ∈ ["Positive"; "Negative"; "Neutral"])
  ∧ ∃ buckets positive negative neutral,
      App5.get_video_comments_with_sentiments Sample.english "abc"
        = ([Comment_threads_list "abc"], Ok buckets)
      ∧ dom buckets = {["Positive"; "Negative"; "Neutral"]}
      ∧ buckets !! "Positive" = Some positive
      ∧ buckets !! "Negative" = Some negative
      ∧ buckets !! "Neutral" = Some neutral
      ∧ (∀ label bucket,
           buckets !! label = Some bucket →
           bucket = filter (λ c, (App5.analyze_sentiment Sample.english c).1.1 = label)
                           (textOriginal <$> Sample.threads))
      ∧ (∀ label bucket c,
           buckets !! label = Some bucket →
           c ∈ bucket ↔
             c ∈ textOriginal <$> Sample.threads
             ∧ (App5.analyze_sentiment Sample.english c).1.1 = label)
      ∧ length positive + length negative + length neutral
          = length Sample.threads.
Proof.
  exact (comments_bucketed_by_label Sample.english "abc" Sample.threads eq_refl).
Defined.

(** The buckets of the four sample comments. *)
Example comment_buckets_of_sample :
  ∃ buckets,
    App5.get_video_comments_with_sentiments Sample.english "abc"
      = ([Comment_threads_list "abc"], Ok buckets)
    ∧ buckets !! "Positive" = Some ["good"]
    ∧ buckets !! "Negative" = Some ["bad"; "bad"]
    ∧ buckets !! "Neutral" = Some ["meh"].
Proof. eexists. split; [reflexivity|]. by vm_compute. Qed.

(** ** A link without an identifier *)

Section no_identifier.
Context (w : world) (youtube_link : string) (pressed : bool).
Hypothesis not_empty : youtube_link ≠ "".
Hypothesis no_equals : contains "=" youtube_link = false.

(** C5, on the code.  For a non-empty link without [=], the script of
    app5.py ends at the thumbnail block with an [IndexError] nothing catches,
    before the button is reached; the script of app.py catches it there,
    shows the invalid-link message and ends normally, the transcript path
    included. *)
Theorem thumbnail_index_fault_in_app5 :
  App5.script w youtube_link pressed
    = ([St_title "YouTube Video Analysis Tool";
        St_text_input "Enter YouTube Video Link:"],
       Raise IndexError)
  ∧ outcome (App.script w youtube_link pressed) = Ok tt
  ∧ St_error "Invalid YouTube link. Please provide a valid URL."
      ∈ trace (App.script w youtube_link pressed).
Proof.
  pose proof (split_without_sep "=" _ no_equals) as Hsplit.
  assert (truthy_str youtube_link = true) as Htruthy
    by (by destruct youtube_link).
  split_and!.
  - unfold App5.script, App5.show_thumbnail, getitem.
    by rewrite Htruthy, Hsplit.
  - unfold App.script, App.show_thumbnail, App.on_get_notes,
      App.extract_transcript_details, getitem.
    rewrite Htruthy, Hsplit. by destruct pressed.
  - unfold App.script, App.show_thumbnail, App.on_get_notes,
      App.extract_transcript_details, getitem.
    rewrite Htruthy, Hsplit. destruct pressed; simpl; set_solver.
Qed.

End no_identifier.

Lemma thumbnail_index_fault_in_app5_witness :
  App5.script Sample.english Sample.no_equals_url true
    = ([St_title "YouTube Video Analysis Tool";
        St_text_input "Enter YouTube Video Link:"],
       Raise IndexError)
  ∧ outcome (App.script Sample.english Sample.no_equals_url true) = Ok tt
  ∧ St_error "Invalid YouTube link. Please provide a valid URL."
      ∈ trace (App.script Sample.english Sample.no_equals_url true).
Proof.
  by apply (thumbnail_index_fault_in_app5 Sample.english Sample.no_equals_url true).
Defined.

(** ** The stages of the analysis and their failures *)

Lemma extract_transcript_details_returns (w : world) (link : string) :
  ∃ r, outcome (App5.extract_transcript_details w link) = Ok r.
Proof.
  unfold App5.extract_transcript_details, call_get_transcript.
  destruct (getitem (split "=" link) 1) as [vid|[]]; simpl; eauto.
  destruct (get_transcript w vid (Some _)) as [segs|[]]; simpl; eauto.
  destruct (get_transcript w vid None); simpl; eauto.
Qed.

Lemma extract_transcript_details_reports (w : world) (link : string) :
  outcome (App5.extract_transcript_details w link) = Ok None →
  ∃ message,
    last (trace (App5.extract_transcript_details w link)) = Some (St_warning message)
    ∨ last (trace (App5.extract_transcript_details w link)) = Some (St_error message).
Proof.
  unfold App5.extract_transcript_details, call_get_transcript.
  destruct (getitem (split "=" link) 1) as [vid|[]]; simpl; eauto.
  destruct (get_transcript w vid (Some _)) as [segs|[]]; simpl; eauto;
    [done|].
  destruct (get_transcript w vid None); simpl; eauto. done.
Qed.

Lemma extract_transcript_details_payloads (w : world) (link : string) :
  summarizer_payloads (trace (App5.extract_transcript_details w link)) = [].
Proof.
  unfold App5.extract_transcript_details, call_get_transcript.
  destruct (getitem (split "=" link) 1) as [vid|[]]; simpl; try done.
  destruct (get_transcript w vid (Some _)) as [segs|[]]; simpl; try done.
  by destruct (get_transcript w vid None).
Qed.

Lemma get_video_details_trace (w : world) (vid : string) :
  trace (App5.get_video_details w vid) = [Videos_list vid].
Proof.
  unfold App5.get_video_details, call_videos_list.
  destruct (videos_list w vid) as [[|item rest]|e]; simpl; try done.
  destruct (App5.int_stat w _ "viewCount"); simpl; [|done].
  destruct (App5.int_stat w _ "likeCount"); simpl; [|done].
  destruct (App5.int_stat w _ "dislikeCount"); simpl; [|done].
  by destruct (App5.int_stat w _ "commentCount").
Qed.

Lemma get_video_comments_trace (w : world) (vid : string) :
  trace (App5.get_video_comments_with_sentiments w vid)
    = [Comment_threads_list vid].
Proof.
  destruct (comment_threads_list w vid) as [threads|e] eqn:Hfetch.
  - destruct (comments_buckets_exist w vid threads Hfetch) as [b ->]. done.
  - unfold App5.get_video_comments_with_sentiments, call_comment_threads_list.
    by rewrite Hfetch.
Qed.

Lemma for_each_write {A} (body : unit → A → M unit) (f : A → string) l :
  (∀ u x, body u x = st_write (f x)) →
  for_each l body tt = (St_write ∘ f <$> l, Ok tt).
Proof.
  intros Hbody. induction l as [|x l IH]; [done|].
  cbn [for_each]. rewrite Hbody. unfold bind, st_write, emit. by rewrite IH.
Qed.

Lemma summarizer_payloads_app t1 t2 :
  summarizer_payloads (t1 ++ t2)
    = summarizer_payloads t1 ++ summarizer_payloads t2.
Proof. apply bind_app. Qed.

Lemma summarizer_payloads_writes {A} (f : A → string) (l : list A) :
  summarizer_payloads (St_write ∘ f <$> l) = [].
Proof. induction l as [|x l IH]; [done|]. simpl. apply IH. Qed.

Lemma display_results_payloads d buckets :
  summarizer_payloads (trace (App5.display_results d buckets)) = [].
Proof.
  unfold App5.display_results, App5.subscript_details, dict_getitem.
  destruct d as [d|]; [|done].
  destruct (buckets !! "Positive"); [|done].
  destruct (buckets !! "Negative") as [negative|]; [|done].
  destruct (buckets !! "Neutral"); [|done].
  simpl. unfold App5.write_numbered.
  rewrite (for_each_write _ (λ p, pretty p.1 +:+ ". " +:+ p.2))
    by (by intros ? [? ?]).
  destruct (truthy_list negative); [|done].
  simpl. exact (summarizer_payloads_writes _ _).
Qed.

Lemma bind_ret {A B} (a : A) (k : A → M B) : bind (ret a) k = k a.
Proof. unfold bind, ret. by destruct (k a). Qed.

Lemma outcome_try_except_total (body : M unit) (report : exn → string) :
  outcome (try_except body (λ e, Some (st_error (report e)))) = Ok tt.
Proof. by destruct body as [t [[]|e]]. Qed.

(** What follows the transcript part of the [try] block sends nothing to
    the summarizer. *)
Lemma metadata_and_display_payloads (w : world) (video_id : option string) :
  summarizer_payloads (trace (
    vid <~ read_var (NameError "video_id") video_id;
    video_details <~ App5.get_video_details w vid;
    vid <~ read_var (NameError "video_id") video_id;
    comments_by_sentiment <~ App5.get_video_comments_with_sentiments w vid;
    App5.display_results video_details comments_by_sentiment)) = [].
Proof.
  destruct video_id as [vid|]; [|done].
  unfold read_var. rewrite bind_ret, trace_bind, get_video_details_trace.
  destruct (outcome (App5.get_video_details w vid)) as [d|e]; [|done].
  rewrite bind_ret, trace_bind, get_video_comments_trace.
  destruct (outcome (App5.get_video_comments_with_sentiments w vid))
    as [buckets|e]; [|done].
  rewrite !summarizer_payloads_app, display_results_payloads. done.
Qed.

Lemma transcript_analysis_payloads (w : world) (link t : string) :
  outcome (App5.extract_transcript_details w link) = Ok (Some t) →
  t ≠ "" →
  summarizer_payloads (trace (App5.transcript_analysis w link))
    = [App5.prompt +:+ t].
Proof.
  intros Hout Ht. unfold App5.transcript_analysis.
  rewrite trace_bind, summarizer_payloads_app,
    extract_transcript_details_payloads, Hout.
  assert (truthy_str t = true) as -> by (by destruct t).
  unfold App5.generate_gemini_content, call_generate_content.
  by destruct (generate_content w "gemini-pro" _).
Qed.

Lemma app_extract_transcript_details_payloads (w : world) (link : string) :
  summarizer_payloads (trace (App.extract_transcript_details w link)) = [].
Proof.
  unfold App.extract_transcript_details, call_get_transcript.
  destruct (getitem (split "=" link) 1) as [vid|[]]; simpl; try done.
  by destruct (get_transcript w vid None) as [segs|[]].
Qed.

Section summarizer.
Context (w : world).

(** C2.  [generate_gemini_content] sends the summarizer the prompt followed
    by the transcript text, unchanged, and nothing else.  In a run of the
    analysis (app5.py) or of the notes (app.py) in which the transcript was
    retrieved and is not empty, that one payload, made of the script's prompt
    and the retrieved text, is all the summarizer receives.  For the segments
    hello, world and the prompt "Summarize: " it is "Summarize: hello world". *)
Theorem summarizer_receives_prompt_then_transcript :
  (∀ transcript_text prompt,
     trace (App5.generate_gemini_content w transcript_text prompt)
       = [Generate_content "gemini-pro" (prompt +:+ transcript_text)])
  ∧ (∀ link video_id t,
       outcome (App5.extract_transcript_details w link) = Ok (Some t) →
       t ≠ "" →
       summarizer_payloads (trace (App5.on_analyze w link video_id))
         = [App5.prompt +:+ t])
  ∧ (∀ link t,
       outcome (App.extract_transcript_details w link) = Ok (Some t) →
       t ≠ "" →
       summarizer_payloads (trace (App.on_get_notes w link))
         = [App.prompt +:+ t])
  ∧ (∀ s1 d1 s2 d2,
       summarizer_payloads (trace (
         App5.generate_gemini_content w
           (join " " (text <$> [Segment "hello" s1 d1; Segment "world" s2 d2]))
           "Summarize: "))
         = ["Summarize: hello world"]).
Proof.
  split_and!; [done| | |done].
  - intros link video_id t Hout Ht.
    unfold App5.on_analyze, App5.analyze_body.
    rewrite trace_try_except, trace_bind, !summarizer_payloads_app.
    rewrite (transcript_analysis_payloads w link t Hout Ht).
    rewrite outcome_bind.
    destruct (outcome (App5.transcript_analysis w link)) as [[]|e].
    + rewrite metadata_and_display_payloads.
      by match goal with
         | |- context [match ?o with Ok _ => _ | Raise _ => _ end] => destruct o
         end.
    + done.
  - intros link t Hout Ht. unfold App.on_get_notes.
    rewrite trace_bind, summarizer_payloads_app,
      app_extract_transcript_details_payloads, Hout.
    assert (truthy_str t = true) as -> by (by destruct t).
    unfold App.generate_gemini_content, call_generate_content.
    destruct (generate_content w "gemini-pro" _) as [summary|e]; [|done].
    simpl. by destruct (truthy_str summary).
Qed.

End summarizer.

Lemma summarizer_receives_prompt_then_transcript_witness :
  summarizer_payloads
    (trace (App5.on_analyze Sample.english Sample.watch_url (Some "abc")))
    = [App5.prompt +:+ "hello world"]
  ∧ summarizer_payloads (trace (App.on_get_notes Sample.english Sample.watch_url))
    = [App.prompt +:+ "hello world"].
Proof.
  destruct (summarizer_receives_prompt_then_transcript Sample.english)
    as (_ & H5 & H1 & _).
  split.
  - by apply (H5 Sample.watch_url (Some "abc") "hello world").
  - by apply (H1 Sample.watch_url "hello world").
Defined.

(** ** Failures and the single handler of app5.py *)

(** C9, as the claim states it, fails: when the metadata request is refused,
    the comment request, which would have been answered, is never sent, and
    the run ends with the message of the enclosing handler. *)
Lemma metadata_failure_aborts_comment_fetch :
  videos_list Sample.metadata_refused "abc" = Raise (OtherError "quotaExceeded")
  ∧ comment_threads_list Sample.metadata_refused "abc" = Ok Sample.threads
  ∧ Videos_list "abc"
      ∈ trace (App5.script Sample.metadata_refused Sample.watch_url true)
  ∧ (Comment_threads_list "abc"
      ∉ trace (App5.script Sample.metadata_refused Sample.watch_url true))
  ∧ last (trace (App5.script Sample.metadata_refused Sample.watch_url true))
      = Some (St_error "An error occurred: quotaExceeded").
Proof.
  split_and!; [done|done| | |done].
  - vm_compute. set_solver.
  - intros Hin. vm_compute in Hin.
    repeat (apply elem_of_cons in Hin as [Hin|Hin]; [discriminate|]).
    by apply elem_of_nil in Hin.
Qed.

Section failures.
Context (w : world) (youtube_link : string) (video_id : option string).

(** C9, amended.  No exception leaves the analysis of app5.py: the
    transcript stage catches its own failures, reports them and returns, and
    for a link with an identifier (so that [video_id] is assigned) the
    metadata request is then still sent; an exception of any later statement
    of the [try] block is caught by the one enclosing handler, which shows
    "An error occurred: ..." after what was shown so far, and the statements
    after the failing one are not run: a failing summarizer ends the run
    before the metadata request, a failing metadata request before the
    comment request, a failing comment request before the display. *)
Theorem analysis_failures_end_at_enclosing_handler :
  outcome (App5.on_analyze w youtube_link video_id) = Ok tt
  ∧ (∃ r, outcome (App5.extract_transcript_details w youtube_link) = Ok r)
  ∧ (outcome (App5.extract_transcript_details w youtube_link) = Ok None →
     ∃ message,
       last (trace (App5.extract_transcript_details w youtube_link))
         = Some (St_warning message)
       ∨ last (trace (App5.extract_transcript_details w youtube_link))
         = Some (St_error message))
  ∧ (∀ vid,
       video_id = Some vid →
       outcome (App5.extract_transcript_details w youtube_link) = Ok None →
       ∃ rest,
         trace (App5.on_analyze w youtube_link video_id)
           = trace (App5.extract_transcript_details w youtube_link)
             ++ St_warning App5.skipped_warning :: Videos_list vid :: rest)
  ∧ (∀ e,
       outcome (App5.analyze_body w youtube_link video_id) = Raise e →
       App5.on_analyze w youtube_link video_id
         = (trace (App5.analyze_body w youtube_link video_id)
              ++ [St_error ("An error occurred: " +:+ str_exn e)],
            Ok tt))
  ∧ (∀ t e,
       outcome (App5.extract_transcript_details w youtube_link) = Ok (Some t) →
       t ≠ "" →
       generate_content w "gemini-pro" (App5.prompt +:+ t) = Raise e →
       App5.analyze_body w youtube_link video_id
         = (trace (App5.extract_transcript_details w youtube_link)
              ++ [Generate_content "gemini-pro" (App5.prompt +:+ t)],
            Raise e))
  ∧ (∀ vid e,
       video_id = Some vid →
       outcome (App5.transcript_analysis w youtube_link) = Ok tt →
       videos_list w vid = Raise e →
       App5.analyze_body w youtube_link video_id
         = (trace (App5.transcript_analysis w youtube_link) ++ [Videos_list vid],
            Raise e))
  ∧ (∀ vid d e,
       video_id = Some vid →
       outcome (App5.transcript_analysis w youtube_link) = Ok tt →
       outcome (App5.get_video_details w vid) = Ok d →
       comment_threads_list w vid = Raise e →
       App5.analyze_body w youtube_link video_id
         = (trace (App5.transcript_analysis w youtube_link)
              ++ [Videos_list vid; Comment_threads_list vid],
            Raise e)).
Proof.
  split_and!.
  - apply outcome_try_except_total.
  - apply extract_transcript_details_returns.
  - apply extract_transcript_details_reports.
  - intros vid -> Hnone.
    unfold App5.on_analyze, App5.analyze_body, App5.transcript_analysis.
    pose proof (get_video_details_trace w vid) as Htr.
    destruct (App5.extract_transcript_details w youtube_link) as [tE rE].
    simpl in Hnone. subst rE. simpl.
    destruct (App5.get_video_details w vid) as [tD [d|e]];
      simpl in Htr; subst tD; simpl.
    + destruct (bind (App5.get_video_comments_with_sentiments w vid) _)
        as [tR [[]|e]]; simpl; rewrite <- ?app_assoc; simpl; eauto.
    + rewrite <- ?app_assoc. simpl. eauto.
  - intros e He. unfold App5.on_analyze.
    destruct (App5.analyze_body w youtube_link video_id) as [t r].
    simpl in He. subst r. done.
  - intros t e Hout Ht Hgen.
    unfold App5.analyze_body, App5.transcript_analysis.
    destruct (App5.extract_transcript_details w youtube_link) as [tE rE].
    simpl in Hout. subst rE.
    assert (truthy_str t = true) as Htruthy by (by destruct t).
    unfold App5.generate_gemini_content, call_generate_content.
    simpl. rewrite Htruthy, Hgen. simpl. by rewrite ?app_nil_r.
  - intros vid e -> Hok Hfail. unfold App5.analyze_body.
    destruct (App5.transcript_analysis w youtube_link) as [tT rT].
    simpl in Hok. subst rT.
    unfold App5.get_video_details, call_videos_list. simpl.
    rewrite Hfail. simpl. done.
  - intros vid d e -> Hok Hd Hfail. unfold App5.analyze_body.
    destruct (App5.transcript_analysis w youtube_link) as [tT rT].
    simpl in Hok. subst rT. simpl.
    pose proof (get_video_details_trace w vid) as Htr.
    destruct (App5.get_video_details w vid) as [tD rD].
    simpl in Hd, Htr. subst rD tD.
    unfold App5.get_video_comments_with_sentiments, call_comment_threads_list.
    simpl. rewrite Hfail. simpl. done.
Qed.

End failures.

Lemma analysis_failures_end_at_enclosing_handler_witness :
  App5.analyze_body Sample.metadata_refused Sample.watch_url (Some "abc")
    = (trace (App5.transcript_analysis Sample.metadata_refused Sample.watch_url)
         ++ [Videos_list "abc"],
       Raise (OtherError "quotaExceeded"))
  ∧ App5.on_analyze Sample.metadata_refused Sample.watch_url (Some "abc")
    = (trace (App5.analyze_body Sample.metadata_refused Sample.watch_url (Some "abc"))
         ++ [St_error "An error occurred: quotaExceeded"],
       Ok tt).
Proof.
  destruct (analysis_failures_end_at_enclosing_handler
              Sample.metadata_refused Sample.watch_url (Some "abc"))
    as (_ & _ & _ & _ & Hhandler & _ & Hmeta & _).
  split.
  - by apply (Hmeta "abc" (OtherError "quotaExceeded")).
  - by apply (Hhandler (OtherError "quotaExceeded")).
Defined.

(** * Further properties of the two scripts *)

(** ** The transcript requests of app5.py *)

Section transcript_requests.
Context (w : world) (url vid : string).
Hypothesis url_has_id : split "=" url !! 1 = Some vid.

(** X1.  [extract_transcript_details] of app5.py always sends the request
    restricted to English first, and sends the unrestricted request exactly
    when the first one raised [NoTranscriptFound]: never after a success, and
    never after any other error. *)
Theorem fallback_request_only_after_no_transcript_found :
  requests (trace (App5.extract_transcript_details w url))
    = Get_transcript vid (Some ["en"])
      :: match get_transcript w vid (Some ["en"]) with
         | Raise (NoTranscriptFound _) => [Get_transcript vid None]
         | _ => []
         end
  ∧ (Get_transcript vid None ∈ trace (App5.extract_transcript_details w url)
     ↔ ∃ msg, get_transcript w vid (Some ["en"]) = Raise (NoTranscriptFound msg)).
Proof.
  unfold App5.extract_transcript_details, getitem, call_get_transcript.
  rewrite url_has_id. simpl.
  destruct (get_transcript w vid (Some ["en"])) as [segs|[]]; simpl;
    try (split; [done|]; split; [intros Hin|by intros [? ?]];
         repeat (apply elem_of_cons in Hin as [Hin|Hin]; [discriminate|]);
         by apply elem_of_nil in Hin).
  destruct (get_transcript w vid None); simpl;
    (split; [done|]; split; [by eauto|intros _; set_solver]).
Qed.

(** X2.  An error of the English request other than [NoTranscriptFound] and
    [TranscriptsDisabled] (an unavailable video, a network failure) is shown
    once, with the text of the exception, as an unexpected error; nothing is
    retried and [None] is returned. *)
Theorem other_transcript_errors_reported_once (e : exn) :
  get_transcript w vid (Some ["en"]) = Raise e →
  (∀ msg, e ≠ NoTranscriptFound msg) →
  (∀ msg, e ≠ TranscriptsDisabled msg) →
  App5.extract_transcript_details w url
    = ([Get_transcript vid (Some ["en"]);
        St_error ("An unexpected error occurred while fetching the transcript: "
                  +:+ str_exn e)],
       Ok None).
Proof.
  intros He Hnf Hdis.
  unfold App5.extract_transcript_details, getitem, call_get_transcript.
  rewrite url_has_id. simpl. rewrite He.
  destruct e; simpl; try done.
  - by destruct (Hnf msg).
  - by destruct (Hdis msg).
Qed.

(** X4.  A transcript whose joined text is empty (no segment, or only empty
    ones) counts as no transcript in app5.py: the run warns that the analysis
    is skipped and the summarizer is not asked. *)
Theorem empty_transcript_is_reported_as_unavailable (segs : list segment) :
  get_transcript w vid (Some ["en"]) = Ok segs →
  join " " (text <$> segs) = "" →
  App5.transcript_analysis w url
    = ([Get_transcript vid (Some ["en"]); St_warning App5.skipped_warning],
       Ok tt).
Proof.
  intros Hsegs Hempty.
  unfold App5.transcript_analysis, App5.extract_transcript_details, getitem,
    call_get_transcript.
  rewrite url_has_id. simpl. rewrite Hsegs. simpl. by rewrite Hempty.
Qed.

(** X5.  In app.py the same transcript gives nothing at all: the only event
    of the notes is the transcript request; no summary, no message. *)
Theorem empty_transcript_gives_no_notes_and_no_message (segs : list segment) :
  get_transcript w vid None = Ok segs →
  join " " (text <$> segs) = "" →
  App.on_get_notes w url = ([Get_transcript vid None], Ok tt).
Proof.
  intros Hsegs Hempty.
  unfold App.on_get_notes, App.extract_transcript_details, getitem,
    call_get_transcript.
  rewrite url_has_id. simpl. rewrite Hsegs. simpl. by rewrite Hempty.
Qed.

End transcript_requests.

Lemma fallback_request_only_after_no_transcript_found_witness :
  requests (trace (App5.extract_transcript_details Sample.other_language Sample.watch_url))
    = [Get_transcript "abc" (Some ["en"]); Get_transcript "abc" None]
  ∧ requests (trace (App5.extract_transcript_details Sample.captions_disabled Sample.watch_url))
    = [Get_transcript "abc" (Some ["en"])].
Proof.
  split.
  - exact (proj1 (fallback_request_only_after_no_transcript_found
                    Sample.other_language Sample.watch_url "abc" eq_refl)).
  - exact (proj1 (fallback_request_only_after_no_transcript_found
                    Sample.captions_disabled Sample.watch_url "abc" eq_refl)).
Defined.

Lemma other_transcript_errors_reported_once_witness :
  App5.extract_transcript_details Sample.video_removed Sample.watch_url
    = ([Get_transcript "abc" (Some ["en"]);
        St_error ("An unexpected error occurred while fetching the transcript: "
                  +:+ "the video is no longer available")],
       Ok None).
Proof.
  by apply (other_transcript_errors_reported_once
              Sample.video_removed Sample.watch_url "abc" eq_refl
              (VideoUnavailable "the video is no longer available")).
Defined.

Lemma empty_transcript_is_reported_as_unavailable_witness :
  App5.transcript_analysis Sample.silent_video Sample.watch_url
    = ([Get_transcript "abc" (Some ["en"]); St_warning App5.skipped_warning],
       Ok tt).
Proof.
  by apply (empty_transcript_is_reported_as_unavailable
              Sample.silent_video Sample.watch_url "abc" eq_refl []).
Defined.

Lemma empty_transcript_gives_no_notes_and_no_message_witness :
  App.on_get_notes Sample.silent_video Sample.watch_url
    = ([Get_transcript "abc" None], Ok tt).
Proof.
  by apply (empty_transcript_gives_no_notes_and_no_message
              Sample.silent_video Sample.watch_url "abc" eq_refl []).
Defined.

(** X3.  For a link without [=] the transcript path of either script sends no
    request: the index error of the identifier is caught inside
    [extract_transcript_details], shown as an unexpected error (and logged in
    app.py), and [None] is returned. *)
Theorem link_without_id_fails_before_any_request (w : world) (url : string) :
  contains "=" url = false →
  App5.extract_transcript_details w url
    = ([St_error ("An unexpected error occurred while fetching the transcript: "
                  +:+ "list index out of range")],
       Ok None)
  ∧ App.extract_transcript_details w url
    = ([St_error "An unexpected error occurred: list index out of range";
        Logging_error "Unexpected error: list index out of range"],
       Ok None).
Proof.
  intros Hno. pose proof (split_without_sep "=" _ Hno) as Hsplit.
  unfold App5.extract_transcript_details, App.extract_transcript_details,
    getitem.
  by rewrite Hsplit.
Qed.

Lemma link_without_id_fails_before_any_request_witness :
  App5.extract_transcript_details Sample.english Sample.no_equals_url
    = ([St_error ("An unexpected error occurred while fetching the transcript: "
                  +:+ "list index out of range")],
       Ok None)
  ∧ App.extract_transcript_details Sample.english Sample.no_equals_url
    = ([St_error "An unexpected error occurred: list index out of range";
        Logging_error "Unexpected error: list index out of range"],
       Ok None).
Proof.
  exact (link_without_id_fails_before_any_request
           Sample.english Sample.no_equals_url eq_refl).
Defined.

(** ** app.py: failures stay inside the script *)

Lemma app_extract_transcript_details_returns (w : world) (url : string) :
  ∃ r, outcome (App.extract_transcript_details w url) = Ok r.
Proof.
  unfold App.extract_transcript_details, call_get_transcript, getitem.
  destruct (split "=" url !! 1) as [vid|]; simpl; eauto.
  destruct (get_transcript w vid None) as [segs|[]]; simpl; eauto.
Qed.

Lemma app_generate_gemini_content_returns (w : world) (t p : string) :
  ∃ r, outcome (App.generate_gemini_content w t p) = Ok r.
Proof.
  unfold App.generate_gemini_content, call_generate_content.
  destruct (generate_content w "gemini-pro" (p +:+ t)); simpl; eauto.
Qed.

Lemma app_show_thumbnail_returns (link : string) :
  outcome (App.show_thumbnail link) = Ok tt.
Proof.
  unfold App.show_thumbnail.
  destruct (truthy_str link); [|done]. unfold getitem.
  by destruct (split "=" link !! 1).
Qed.

Lemma app_on_get_notes_returns (w : world) (link : string) :
  outcome (App.on_get_notes w link) = Ok tt.
Proof.
  unfold App.on_get_notes. rewrite outcome_bind.
  destruct (app_extract_transcript_details_returns w link) as [[t|] ->]; [|done].
  destruct (truthy_str t); [|done].
  rewrite outcome_bind.
  destruct (app_generate_gemini_content_returns w t App.prompt)
    as [[summary|] ->]; [|done].
  by destruct (truthy_str summary).
Qed.

Lemma app_transcript_failure_cases (w : world) (url : string) :
  (∃ vid segs,
     get_transcript w vid None = Ok segs
     ∧ App.extract_transcript_details w url
       = ([Get_transcript vid None], Ok (Some (join " " (text <$> segs)))))
  ∨ (∃ sent shown logged,
       App.extract_transcript_details w url
         = (sent ++ [St_error shown; Logging_error logged], Ok None)
       ∧ (sent = [] ∨ ∃ vid, sent = [Get_transcript vid None])).
Proof.
  unfold App.extract_transcript_details, call_get_transcript, getitem.
  destruct (split "=" url !! 1) as [vid|]; simpl.
  - destruct (get_transcript w vid None) as [segs|e] eqn:Hget; simpl.
    + left. eauto.
    + right. destruct e; simpl; eexists [_], _, _; eauto.
  - right. eexists [], _, _. eauto.
Qed.

(** X6.  [extract_transcript_details] of app.py never raises and sends at
    most one request.  It returns [None] exactly when it showed an error
    message, and exactly when it wrote a log line: a failure is never silent,
    and a success shows and logs nothing. *)
Theorem app_transcript_failure_shown_and_logged (w : world) (url : string) :
  ∃ r,
    outcome (App.extract_transcript_details w url) = Ok r
    ∧ (r = None
       ↔ ∃ shown, St_error shown ∈ trace (App.extract_transcript_details w url))
    ∧ (r = None
       ↔ ∃ logged,
           Logging_error logged ∈ trace (App.extract_transcript_details w url))
    ∧ (length (requests (trace (App.extract_transcript_details w url))) ≤ 1)%nat.
Proof.
  destruct (app_transcript_failure_cases w url)
    as [(vid & segs & _ & ->)|(sent & shown & logged & -> & Hsent)]; simpl.
  - eexists. split; [done|]. split_and!; [| |done];
      (split; [done|]); intros [m Hin];
      apply elem_of_cons in Hin as [Hin|Hin]; [discriminate| |discriminate|];
      by apply elem_of_nil in Hin.
  - exists None. split; [done|]. split_and!.
    + split; [|done]. intros _. exists shown.
      rewrite elem_of_app, !elem_of_cons. eauto.
    + split; [|done]. intros _. exists logged.
      rewrite elem_of_app, !elem_of_cons. eauto.
    + destruct Hsent as [->|[vid ->]]; vm_compute; lia.
Qed.

Section app_taxonomy.
Context (w : world) (url vid : string).
Hypothesis url_has_id : split "=" url !! 1 = Some vid.

(** X7.  app.py has no language fallback: whatever its single request
    raises ends the retrieval.  Disabled transcripts and an unavailable video
    have messages of their own (the log names the identifier, respectively
    the link); a missing transcript is shown as an unexpected error with the
    text of the exception. *)
Theorem app_transcript_errors_by_kind :
  (∀ msg,
     get_transcript w vid None = Raise (TranscriptsDisabled msg) →
     App.extract_transcript_details w url
       = ([Get_transcript vid None;
           St_error "Transcripts are disabled for this video. Please try another video.";
           Logging_error ("Transcripts are disabled for video ID: " +:+ vid)],
          Ok None))
  ∧ (∀ msg,
     get_transcript w vid None = Raise (VideoUnavailable msg) →
     App.extract_transcript_details w url
       = ([Get_transcript vid None;
           St_error "The video is unavailable or does not exist. Please check the link.";
           Logging_error ("Video unavailable for URL: " +:+ url)],
          Ok None))
  ∧ (∀ msg,
     get_transcript w vid None = Raise (NoTranscriptFound msg) →
     App.extract_transcript_details w url
       = ([Get_transcript vid None;
           St_error ("An unexpected error occurred: " +:+ msg);
           Logging_error ("Unexpected error: " +:+ msg)],
          Ok None)).
Proof.
  split_and!; intros msg Hget;
    unfold App.extract_transcript_details, getitem, call_get_transcript;
    rewrite url_has_id; simpl; rewrite Hget; simpl;
    by rewrite ?url_has_id.
Qed.

End app_taxonomy.

Lemma app_transcript_errors_by_kind_witness :
  App.extract_transcript_details Sample.captions_disabled Sample.watch_url
    = ([Get_transcript "abc" None;
        St_error "Transcripts are disabled for this video. Please try another video.";
        Logging_error "Transcripts are disabled for video ID: abc"],
       Ok None)
  ∧ App.extract_transcript_details Sample.video_removed Sample.watch_url
    = ([Get_transcript "abc" None;
        St_error "The video is unavailable or does not exist. Please check the link.";
        Logging_error "Video unavailable for URL: https://www.youtube.com/watch?v=abc"],
       Ok None)
  ∧ App.extract_transcript_details Sample.no_captions Sample.watch_url
    = ([Get_transcript "abc" None;
        St_error "An unexpected error occurred: no transcript";
        Logging_error "Unexpected error: no transcript"],
       Ok None).
Proof.
  split_and!.
  - exact (proj1 (app_transcript_errors_by_kind
                    Sample.captions_disabled Sample.watch_url "abc" eq_refl)
                 _ eq_refl).
  - exact (proj1 (proj2 (app_transcript_errors_by_kind
                    Sample.video_removed Sample.watch_url "abc" eq_refl))
                 _ eq_refl).
  - exact (proj2 (proj2 (app_transcript_errors_by_kind
                    Sample.no_captions Sample.watch_url "abc" eq_refl))
                 _ eq_refl).
Defined.

(** X8.  A run of app.py never ends with an exception, whatever the link,
    the button and the answers of the services. *)
Theorem app_script_never_raises (w : world) (link : string) (pressed : bool) :
  outcome (App.script w link pressed) = Ok tt.
Proof.
  unfold App.script. rewrite !outcome_bind. simpl.
  rewrite app_show_thumbnail_returns. simpl.
  destruct pressed; [|done]. apply app_on_get_notes_returns.
Qed.

(** X10.  Until the button is pressed neither script sends a request to any
    service: showing the page and the thumbnail costs nothing. *)
Theorem no_request_before_the_button (w : world) (link : string) :
  requests (trace (App5.script w link false)) = []
  ∧ requests (trace (App.script w link false)) = [].
Proof.
  unfold App5.script, App5.show_thumbnail, App.script, App.show_thumbnail.
  destruct (truthy_str link); [|done]. unfold getitem.
  by destruct (split "=" link !! 1).
Qed.

Lemma truthy_str_nonempty (s : string) : truthy_str s = true ↔ s ≠ "".
Proof. by destruct s. Qed.

(** X9.  app.py shows the notes exactly when the transcript was retrieved
    and is not empty and the summarizer answered with a non-empty text; the
    heading and the summary are then the last two things shown.  In every
    other case no notes heading appears. *)
Theorem app_notes_shown_exactly_for_a_summary (w : world) (link : string) :
  St_markdown "## Detailed Notes:" ∈ trace (App.on_get_notes w link)
  ↔ ∃ t s,
      outcome (App.extract_transcript_details w link) = Ok (Some t)
      ∧ t ≠ ""
      ∧ generate_content w "gemini-pro" (App.prompt +:+ t) = Ok s
      ∧ s ≠ ""
      ∧ trace (App.on_get_notes w link)
        = trace (App.extract_transcript_details w link)
          ++ [Generate_content "gemini-pro" (App.prompt +:+ t);
              St_markdown "## Detailed Notes:"; St_write s].
Proof.
  split.
  - destruct (app_transcript_failure_cases w link)
      as [(vid & segs & _ & Hrun)|(sent & shown & logged & Hrun & Hsent)];
      unfold App.on_get_notes; rewrite Hrun; simpl.
    + set (t := join " " (text <$> segs)).
      destruct (truthy_str t) eqn:Ht; simpl.
      * unfold App.generate_gemini_content, call_generate_content.
        destruct (generate_content w "gemini-pro" (App.prompt +:+ t))
          as [s|e] eqn:Hgen; simpl.
        -- destruct (truthy_str s) eqn:Hs; simpl.
           ++ intros _. exists t, s.
              by rewrite <- !truthy_str_nonempty.
           ++ intros Hin.
              repeat (apply elem_of_cons in Hin as [Hin|Hin]; [discriminate|]).
              by apply elem_of_nil in Hin.
        -- intros Hin.
           repeat (apply elem_of_cons in Hin as [Hin|Hin]; [discriminate|]).
           by apply elem_of_nil in Hin.
      * intros Hin.
        repeat (apply elem_of_cons in Hin as [Hin|Hin]; [discriminate|]).
        by apply elem_of_nil in Hin.
    + rewrite app_nil_r. intros Hin.
      apply elem_of_app in Hin as [Hin|Hin].
      * destruct Hsent as [->|[vid ->]].
        -- by apply elem_of_nil in Hin.
        -- apply elem_of_cons in Hin as [Hin|Hin]; [discriminate|].
           by apply elem_of_nil in Hin.
      * repeat (apply elem_of_cons in Hin as [Hin|Hin]; [discriminate|]).
        by apply elem_of_nil in Hin.
  - intros (t & s & _ & _ & _ & _ & ->). set_solver.
Qed.

(** X11.  Pressing the button with an empty input box: app5.py contacts no
    service, reports the index error of the transcript stage, the skipped
    analysis, and then the name error of the never assigned [video_id];
    app.py reports and logs the index error.  Both runs end normally. *)
Theorem button_pressed_with_empty_link (w : world) :
  App5.script w "" true
    = ([St_title "YouTube Video Analysis Tool";
        St_text_input "Enter YouTube Video Link:";
        St_button "Analyze Video";
        St_error ("An unexpected error occurred while fetching the transcript: "
                  +:+ "list index out of range");
        St_warning "Transcript-based analysis skipped due to unavailable subtitles.";
        St_error "An error occurred: name 'video_id' is not defined"],
       Ok tt)
  ∧ App.script w "" true
    = ([St_title "YouTube Transcript to Detailed Notes Converter";
        St_text_input "Enter YouTube Video Link:";
        St_button "Get Detailed Notes";
        St_error "An unexpected error occurred: list index out of range";
        Logging_error "Unexpected error: list index out of range"],
       Ok tt).
Proof. done. Qed.

(** ** app5.py: what a run of the analysis asks and shows *)

Lemma requests_app t1 t2 : requests (t1 ++ t2) = requests t1 ++ requests t2.
Proof. apply filter_app. Qed.

Lemma requests_writes {A} (f : A → string) (l : list A) :
  requests (St_write ∘ f <$> l) = [].
Proof. induction l as [|x l IH]; [done|]. exact IH. Qed.

Lemma display_results_requests d buckets :
  requests (trace (App5.display_results d buckets)) = [].
Proof.
  unfold App5.display_results, App5.subscript_details, dict_getitem.
  destruct d as [d|]; [|done].
  destruct (buckets !! "Positive"); [|done].
  destruct (buckets !! "Negative") as [negative|]; [|done].
  destruct (buckets !! "Neutral"); [|done].
  simpl. unfold App5.write_numbered.
  rewrite (for_each_write _ (λ p, pretty p.1 +:+ ". " +:+ p.2))
    by (by intros ? [? ?]).
  destruct (truthy_list negative); [|done].
  simpl. exact (requests_writes _ _).
Qed.

Lemma metadata_and_display_requests (w : world) (vid : string) :
  requests (trace (
    vid <~ read_var (NameError "video_id") (Some vid);
    video_details <~ App5.get_video_details w vid;
    vid <~ read_var (NameError "video_id") (Some vid);
    comments_by_sentiment <~ App5.get_video_comments_with_sentiments w vid;
    App5.display_results video_details comments_by_sentiment))
  `sublist_of` [Videos_list vid; Comment_threads_list vid].
Proof.
  unfold read_var. rewrite bind_ret, trace_bind, get_video_details_trace.
  destruct (outcome (App5.get_video_details w vid)) as [d|e].
  - rewrite bind_ret, trace_bind, get_video_comments_trace.
    destruct (outcome (App5.get_video_comments_with_sentiments w vid))
      as [buckets|e].
    + by rewrite !requests_app, display_results_requests.
    + by apply sublist_skip.
  - apply sublist_skip, sublist_nil_l.
Qed.

Ltac solve_sublist :=
  repeat first [apply sublist_nil_l | apply sublist_skip | apply sublist_cons].

Lemma transcript_analysis_requests (w : world) (link id : string) :
  split "=" link !! 1 = Some id →
  ∃ payload,
    requests (trace (App5.transcript_analysis w link))
    `sublist_of` [Get_transcript id (Some ["en"]); Get_transcript id None;
                  Generate_content "gemini-pro" payload].
Proof.
  intros Hid.
  unfold App5.transcript_analysis, App5.extract_transcript_details, getitem,
    call_get_transcript, App5.generate_gemini_content, call_generate_content.
  rewrite Hid. simpl.
  destruct (get_transcript w id (Some ["en"])) as [segs|e]; simpl.
  - exists (App5.prompt +:+ join " " (text <$> segs)).
    destruct (truthy_str _); simpl;
      [destruct (generate_content w "gemini-pro" _)|]; simpl; solve_sublist.
  - destruct e; simpl; try solve [exists ""; solve_sublist].
    destruct (get_transcript w id None) as [segs|e]; simpl.
    + exists (App5.prompt +:+ join " " (text <$> segs)).
      destruct (truthy_str _); simpl;
        [destruct (generate_content w "gemini-pro" _)|]; simpl; solve_sublist.
    + exists "". solve_sublist.
Qed.

Lemma on_analyze_requests (w : world) (link id : string) :
  split "=" link !! 1 = Some id →
  ∃ payload,
    requests (trace (App5.on_analyze w link (Some id)))
    `sublist_of` [Get_transcript id (Some ["en"]); Get_transcript id None;
                  Generate_content "gemini-pro" payload;
                  Videos_list id; Comment_threads_list id].
Proof.
  intros Hid.
  destruct (transcript_analysis_requests w link id Hid) as [payload Hta].
  exists payload. unfold App5.on_analyze, App5.analyze_body.
  rewrite trace_try_except, trace_bind, !requests_app.
  match goal with
  | |- context [requests (match ?o with Ok _ => [] | Raise _ => _ end)] =>
      replace (requests (match o with
                         | Ok _ => []
                         | Raise e =>
                             from_option trace []
                               (Some (st_error ("An error occurred: " +:+ str_exn e)))
                         end)) with (@nil event) by (by destruct o)
  end.
  rewrite app_nil_r.
  change [Get_transcript id (Some ["en"]); Get_transcript id None;
          Generate_content "gemini-pro" payload;
          Videos_list id; Comment_threads_list id]
    with ([Get_transcript id (Some ["en"]); Get_transcript id None;
           Generate_content "gemini-pro" payload]
          ++ [Videos_list id; Comment_threads_list id]).
  apply sublist_app; [done|].
  destruct (outcome (App5.transcript_analysis w link)) as [[]|e].
  - apply metadata_and_display_requests.
  - apply sublist_nil_l.
Qed.

Section analysis_run.
Context (w : world) (link id : string).
Hypothesis link_has_id : split "=" link !! 1 = Some id.

(** X13.  A run of app5.py with the button pressed sends at most five
    requests, each at most once and in this order: the English transcript,
    the transcript in any language, the summary, the video details, the
    comment threads; all of them for the identifier cut from the link. *)
Theorem analysis_requests_in_order :
  ∃ payload,
    requests (trace (App5.script w link true))
    `sublist_of` [Get_transcript id (Some ["en"]); Get_transcript id None;
                  Generate_content "gemini-pro" payload;
                  Videos_list id; Comment_threads_list id].
Proof.
  destruct (on_analyze_requests w link id link_has_id) as [payload Hreq].
  exists payload.
  assert (truthy_str link = true) as Htruthy by (by destruct link).
  unfold App5.script, App5.show_thumbnail, getitem.
  rewrite Htruthy, link_has_id. simpl.
  by destruct (App5.on_analyze w link (Some id)).
Qed.

(** X12.  When the platform knows no video for the identifier, the comments
    are still fetched, but the display stops at its first line: after the
    heading the run shows the error of subscripting [None], and neither the
    details nor the comment statistics appear. *)
Theorem unknown_video_stops_the_display (threads : list comment_thread) :
  outcome (App5.transcript_analysis w link) = Ok tt →
  videos_list w id = Ok [] →
  comment_threads_list w id = Ok threads →
  App5.on_analyze w link (Some id)
    = (trace (App5.transcript_analysis w link)
         ++ [Videos_list id; Comment_threads_list id;
             St_markdown "## Video Details:";
             St_error "An error occurred: 'NoneType' object is not subscriptable"],
       Ok tt).
Proof.
  intros Hta Hvideos Hthreads.
  destruct (comments_buckets_exist w id threads Hthreads) as [buckets Hb].
  unfold App5.on_analyze, App5.analyze_body.
  destruct (App5.transcript_analysis w link) as [tT rT].
  simpl in Hta. subst rT. simpl.
  unfold App5.get_video_details, call_videos_list. rewrite Hvideos. simpl.
  rewrite Hb. simpl. by rewrite <- app_assoc.
Qed.

End analysis_run.

Lemma analysis_requests_in_order_witness :
  ∃ payload,
    requests (trace (App5.script Sample.other_language Sample.watch_url true))
    `sublist_of` [Get_transcript "abc" (Some ["en"]); Get_transcript "abc" None;
                  Generate_content "gemini-pro" payload;
                  Videos_list "abc"; Comment_threads_list "abc"].
Proof.
  exact (analysis_requests_in_order
           Sample.other_language Sample.watch_url "abc" eq_refl).
Defined.

Lemma unknown_video_stops_the_display_witness :
  App5.on_analyze Sample.unknown_video Sample.watch_url (Some "abc")
    = (trace (App5.transcript_analysis Sample.unknown_video Sample.watch_url)
         ++ [Videos_list "abc"; Comment_threads_list "abc";
             St_markdown "## Video Details:";
             St_error "An error occurred: 'NoneType' object is not subscriptable"],
       Ok tt).
Proof.
  by apply (unknown_video_stops_the_display
              Sample.unknown_video Sample.watch_url "abc" Sample.threads).
Defined.

(** ** Keyword extraction outside the usual range of the count *)

Section keywords_bounds.
Context (w : world).
Hypothesis set_order_spec : set_iteration (set_order w).

(** X14.  When the count is at least the number of distinct kept token
    texts, [extract_keywords] loses nothing: a string is returned exactly
    when it is the text of a token flagged alphabetic and not a stopword, and
    the result holds each such text once, whatever order the set gave. *)
Theorem keywords_all_returned_when_count_suffices (text : string) (num_keywords : Z) :
  (Z.of_nat (length (remove_dups
     (token_text <$> filter (λ t, is_alpha t && negb (is_stop t)) (nlp w text))))
   ≤ num_keywords)%Z →
  (∀ k, k ∈ App5.extract_keywords w text num_keywords
        ↔ ∃ t, t ∈ nlp w text ∧ token_text t = k ∧ kept_token t)
  ∧ App5.extract_keywords w text num_keywords
    ≡ₚ remove_dups
         (token_text <$> filter (λ t, is_alpha t && negb (is_stop t)) (nlp w text)).
Proof.
  intros Hn. unfold App5.extract_keywords, slice_to.
  set (keywords := token_text <$> filter _ (nlp w text)) in *.
  destruct (set_order_spec keywords) as [Hnd Hel].
  assert (set_order w keywords ≡ₚ remove_dups keywords) as Hperm.
  { apply NoDup_Permutation; [done|apply NoDup_remove_dups|].
    intros k. by rewrite Hel, elem_of_remove_dups. }
  destruct (Z.leb_spec 0 num_keywords) as [_|?]; [|lia].
  rewrite take_ge by (rewrite (Permutation_length Hperm); lia).
  split; [|done].
  intros k. rewrite Hel. unfold keywords. rewrite list_elem_of_fmap. split.
  - intros (t & -> & Ht). apply list_elem_of_filter in Ht as [Hp Ht].
    exists t. split_and!; [done..|].
    apply andb_prop_elim in Hp as [Ha Hs]. split.
    + by apply Is_true_eq_true.
    + apply negb_prop_elim in Hs. by destruct (is_stop t).
  - intros (t & Ht & <- & Ha & Hs). exists t. split; [done|].
    apply list_elem_of_filter. split; [|done]. by rewrite Ha, Hs.
Qed.

(** X15.  A negative count is taken from the end: [extract_keywords] then
    returns the enumeration of the distinct kept token texts without its last
    [-num_keywords] elements (nothing when there are not more than that), so
    it does not bound the result by the count. *)
Theorem keywords_negative_count_drops_from_the_end (text : string) (num_keywords : Z) :
  (num_keywords < 0)%Z →
  ∃ dropped,
    set_order w
      (token_text <$> filter (λ t, is_alpha t && negb (is_stop t)) (nlp w text))
      = App5.extract_keywords w text num_keywords ++ dropped
    ∧ length dropped
      = Z.to_nat (- num_keywords) `min`
        length (remove_dups
          (token_text <$> filter (λ t, is_alpha t && negb (is_stop t)) (nlp w text))).
Proof.
  intros Hn. unfold App5.extract_keywords, slice_to.
  set (keywords := token_text <$> filter _ (nlp w text)) in *.
  destruct (set_order_spec keywords) as [Hnd Hel].
  assert (length (set_order w keywords) = length (remove_dups keywords)) as Hlen.
  { apply Permutation_length, NoDup_Permutation;
      [done|apply NoDup_remove_dups|].
    intros k. by rewrite Hel, elem_of_remove_dups. }
  destruct (Z.leb_spec 0 num_keywords) as [?|_]; [lia|].
  eexists. split; [symmetry; apply take_drop|].
  rewrite length_drop. lia.
Qed.

End keywords_bounds.

Lemma keywords_all_returned_when_count_suffices_witness :
  (∀ k, k ∈ App5.extract_keywords Sample.english "hello the hello 42 world" 10
        ↔ ∃ t, t ∈ nlp Sample.english "hello the hello 42 world"
               ∧ token_text t = k ∧ kept_token t)
  ∧ App5.extract_keywords Sample.english "hello the hello 42 world" 10
    ≡ₚ remove_dups
         (token_text <$> filter (λ t, is_alpha t && negb (is_stop t))
                           (nlp Sample.english "hello the hello 42 world")).
Proof.
  apply (keywords_all_returned_when_count_suffices Sample.english
           remove_dups_set_iteration "hello the hello 42 world" 10).
  vm_compute. discriminate.
Defined.

Lemma keywords_negative_count_drops_from_the_end_witness :
  ∃ dropped,
    set_order Sample.english
      (token_text <$> filter (λ t, is_alpha t && negb (is_stop t))
                        (nlp Sample.english "hello the hello 42 world"))
      = App5.extract_keywords Sample.english "hello the hello 42 world" (-1)
        ++ dropped
    ∧ length dropped
      = Z.to_nat (- -1) `min`
        length (remove_dups
          (token_text <$> filter (λ t, is_alpha t && negb (is_stop t))
                            (nlp Sample.english "hello the hello 42 world"))).
Proof.
  apply (keywords_negative_count_drops_from_the_end Sample.english
           remove_dups_set_iteration "hello the hello 42 world" (-1)).
  lia.
Defined.

(** ** The sentiment label, read backwards *)

(** X16.  The label says what the polarity is: Positive exactly when it is
    above zero, Negative exactly when it is below zero, Neutral exactly when
    it is neither, which covers both zeros and a score that is not a number. *)
Theorem sentiment_label_reflects_polarity (w : world) (text : string) :
  ((App5.analyze_sentiment w text).1.1 = "Positive"
   ↔ (0 <? polarity (textblob_sentiment w text))%float = true)
  ∧ ((App5.analyze_sentiment w text).1.1 = "Negative"
     ↔ (polarity (textblob_sentiment w text) <? 0)%float = true)
  ∧ ((App5.analyze_sentiment w text).1.1 = "Neutral"
     ↔ (0 <? polarity (textblob_sentiment w text))%float = false
       ∧ (polarity (textblob_sentiment w text) <? 0)%float = false).
Proof.
  unfold App5.analyze_sentiment. simpl.
  pose proof (float_negative_not_positive (polarity (textblob_sentiment w text)))
    as Hneg.
  destruct (0 <? _)%float eqn:Hpos, (_ <? 0)%float eqn:Hlt;
    try (by specialize (Hneg eq_refl)); split_and!; split; try done;
    by intros [? ?].
Qed.

(** Negative zero and a score that is not a number are Neutral. *)
Example sentiment_of_unordered_scores :
  (App5.analyze_sentiment (Sample.scoring (Sentiment (-0) 0)) "a").1.1 = "Neutral"
  ∧ (App5.analyze_sentiment (Sample.scoring (Sentiment nan 0)) "a").1.1 = "Neutral".
Proof. by split. Qed.

(** ** Statistics that are present *)

Section present_statistics.
Context (w : world) (video_id : string) (item : video_item) (rest : list video_item).
Hypothesis found : videos_list w video_id = Ok (item :: rest).

(** X17.  In a record [get_video_details] returns, a statistic the platform
    sent as an integer is that integer, and one it sent as a string is the
    integer [int] converts the string to: views, likes, dislikes and comments
    are read from viewCount, likeCount, dislikeCount and commentCount. *)
Theorem present_statistics_are_converted (d : App5.video_details) :
  outcome (App5.get_video_details w video_id) = Ok (Some d) →
  ∀ key field,
    (key, field) ∈ [("viewCount", App5.views); ("likeCount", App5.likes);
                    ("dislikeCount", App5.dislikes);
                    ("commentCount", App5.comments)] →
    (∀ z, item_statistics item !! key = Some (StatInt z) → field d = z)
    ∧ (∀ s, item_statistics item !! key = Some (StatStr s) →
            int_of_str w s = Ok (field d)).
Proof.
  unfold App5.get_video_details, call_videos_list. rewrite found. simpl.
  destruct (App5.int_stat w _ "viewCount") as [v|] eqn:Hv; simpl; [|done].
  destruct (App5.int_stat w _ "likeCount") as [l|] eqn:Hl; simpl; [|done].
  destruct (App5.int_stat w _ "dislikeCount") as [dl|] eqn:Hd; simpl; [|done].
  destruct (App5.int_stat w _ "commentCount") as [c|] eqn:Hc; simpl; [|done].
  intros [= <-] key field Hin. unfold App5.int_stat in *.
  repeat (apply elem_of_cons in Hin as [[= -> ->]|Hin]);
    [| | | |by apply elem_of_nil in Hin];
    simpl; (split; [intros z Hz|intros s Hs]).
  all: match goal with
       | Hk : _ !! ?k = Some _, Hi : context [_ !! ?k] |- _ =>
           rewrite Hk in Hi; simpl in Hi; congruence
       end.
Qed.

(** X18.  When one of the four statistics is present as a string that [int]
    rejects, [get_video_details] returns no record at all: it raises, after
    its single request. *)
Theorem unconvertible_statistic_gives_no_record (key s : string) (e : exn) :
  key ∈ ["viewCount"; "likeCount"; "dislikeCount"; "commentCount"] →
  item_statistics item !! key = Some (StatStr s) →
  int_of_str w s = Raise e →
  ∃ e', App5.get_video_details w video_id = ([Videos_list video_id], Raise e').
Proof.
  intros Hin Hkey Hbad.
  assert (App5.int_stat w (item_statistics item) key = Raise e) as Hstat
    by (unfold App5.int_stat; by rewrite Hkey).
  unfold App5.get_video_details, call_videos_list. rewrite found. simpl.
  repeat (apply elem_of_cons in Hin as [->|Hin]);
    [| | | |by apply elem_of_nil in Hin].
  - rewrite Hstat. simpl. eauto.
  - destruct (App5.int_stat w _ "viewCount"); simpl; [|by eauto].
    rewrite Hstat. simpl. eauto.
  - destruct (App5.int_stat w _ "viewCount"); simpl; [|by eauto].
    destruct (App5.int_stat w _ "likeCount"); simpl; [|by eauto].
    rewrite Hstat. simpl. eauto.
  - destruct (App5.int_stat w _ "viewCount"); simpl; [|by eauto].
    destruct (App5.int_stat w _ "likeCount"); simpl; [|by eauto].
    destruct (App5.int_stat w _ "dislikeCount"); simpl; [|by eauto].
    rewrite Hstat. simpl. eauto.
Qed.

End present_statistics.

Lemma present_statistics_are_converted_witness :
  (∀ z, item_statistics Sample.video !! "viewCount" = Some (StatInt z) →
        App5.views (App5.VideoDetails "A title" "A channel" 12 0 0 0 "UC1") = z)
  ∧ (∀ s, item_statistics Sample.video !! "viewCount" = Some (StatStr s) →
          int_of_str Sample.english s
            = Ok (App5.views (App5.VideoDetails "A title" "A channel" 12 0 0 0 "UC1"))).
Proof.
  apply (present_statistics_are_converted Sample.english "abc" Sample.video []
           eq_refl (App5.VideoDetails "A title" "A channel" 12 0 0 0 "UC1")
           eq_refl "viewCount" App5.views).
  apply list_elem_of_here.
Defined.

Lemma unconvertible_statistic_gives_no_record_witness :
  ∃ e', App5.get_video_details Sample.odd_count "abc"
          = ([Videos_list "abc"], Raise e').
Proof.
  apply (unconvertible_statistic_gives_no_record Sample.odd_count "abc"
           Sample.odd_video [] eq_refl "likeCount" "many"
           (ValueError "invalid literal for int() with base 10")).
  - apply list_elem_of_further, list_elem_of_here.
  - reflexivity.
  - reflexivity.
Defined.

(** ** The display of app5.py *)

Lemma display_results_closed_form
    (d : App5.video_details) (buckets : gmap string (list string))
    (positive negative neutral : list string) :
  buckets !! "Positive" = Some positive →
  buckets !! "Negative" = Some negative →
  buckets !! "Neutral" = Some neutral →
  ∃ negatives,
    App5.display_results (Some d) buckets
      = ([St_markdown "## Video Details:";
          St_write ("**Title:** " +:+ App5.title d);
          St_write ("**Channel:** " +:+ App5.channel_title d);
          St_write ("**Views:** " +:+ pretty (App5.views d));
          St_write ("**Likes:** " +:+ pretty (App5.likes d));
          St_write ("**Dislikes:** " +:+ pretty (App5.dislikes d));
          St_write ("**Comments:** " +:+ pretty (App5.comments d));
          St_markdown "### Comment Sentiment Analysis:";
          St_write ("**Positive Comments:** " +:+ pretty (length positive));
          St_write ("**Negative Comments:** " +:+ pretty (length negative));
          St_write ("**Neutral Comments:** " +:+ pretty (length neutral));
          St_markdown "### Negative Comments:"] ++ negatives,
         Ok tt).
Proof.
  intros Hpos Hneg Hneu.
  unfold App5.display_results, App5.subscript_details, dict_getitem.
  rewrite Hpos, Hneg, Hneu. simpl. unfold App5.write_numbered.
  rewrite (for_each_write _ (λ p, pretty p.1 +:+ ". " +:+ p.2))
    by (by intros ? [? ?]).
  destruct (truthy_list negative); simpl; eauto.
Qed.

(** X19.  For a video that was found and a dictionary with the three
    buckets, the display raises nothing and shows, in this order, the six
    detail lines, the three bucket sizes, and the negative comments numbered
    from 1 in the order of their bucket, or the line saying that there are
    none. *)
Theorem display_shows_counts_and_numbered_negatives
    (d : App5.video_details) (buckets : gmap string (list string))
    (positive negative neutral : list string) :
  buckets !! "Positive" = Some positive →
  buckets !! "Negative" = Some negative →
  buckets !! "Neutral" = Some neutral →
  App5.display_results (Some d) buckets
    = ([St_markdown "## Video Details:";
        St_write ("**Title:** " +:+ App5.title d);
        St_write ("**Channel:** " +:+ App5.channel_title d);
        St_write ("**Views:** " +:+ pretty (App5.views d));
        St_write ("**Likes:** " +:+ pretty (App5.likes d));
        St_write ("**Dislikes:** " +:+ pretty (App5.dislikes d));
        St_write ("**Comments:** " +:+ pretty (App5.comments d));
        St_markdown "### Comment Sentiment Analysis:";
        St_write ("**Positive Comments:** " +:+ pretty (length positive));
        St_write ("**Negative Comments:** " +:+ pretty (length negative));
        St_write ("**Neutral Comments:** " +:+ pretty (length neutral));
        St_markdown "### Negative Comments:"]
       ++ match negative with
          | [] => [St_write "No negative comments found."]
          | _ :: _ =>
              imap (λ i comment, St_write (pretty (S i) +:+ ". " +:+ comment))
                   negative
          end,
       Ok tt).
Proof.
  intros Hpos Hneg Hneu.
  unfold App5.display_results, App5.subscript_details, dict_getitem.
  rewrite Hpos, Hneg, Hneu. simpl. unfold App5.write_numbered.
  rewrite (for_each_write _ (λ p, pretty p.1 +:+ ". " +:+ p.2))
    by (by intros ? [? ?]).
  rewrite fmap_imap. by destruct negative.
Qed.

Lemma display_shows_counts_and_numbered_negatives_witness :
  App5.display_results
    (Some (App5.VideoDetails "A title" "A channel" 12 0 0 0 "UC1"))
    (<["Positive" := ["good"]]> (<["Negative" := ["bad"; "worse"]]>
       (<["Neutral" := []]> ∅)))
    = ([St_markdown "## Video Details:";
        St_write "**Title:** A title";
        St_write "**Channel:** A channel";
        St_write "**Views:** 12";
        St_write "**Likes:** 0";
        St_write "**Dislikes:** 0";
        St_write "**Comments:** 0";
        St_markdown "### Comment Sentiment Analysis:";
        St_write "**Positive Comments:** 1";
        St_write "**Negative Comments:** 2";
        St_write "**Neutral Comments:** 0";
        St_markdown "### Negative Comments:";
        St_write "1. bad"; St_write "2. worse"],
       Ok tt).
Proof.
  exact (display_shows_counts_and_numbered_negatives
           (App5.VideoDetails "A title" "A channel" 12 0 0 0 "UC1")
           (<["Positive" := ["good"]]> (<["Negative" := ["bad"; "worse"]]>
              (<["Neutral" := []]> ∅)))
           ["good"] ["bad"; "worse"] [] eq_refl eq_refl eq_refl).
Defined.

(** ** The summarizer of app.py *)

Section app_summarizer.
Context (w : world) (link t : string).
Hypothesis retrieved : outcome (App.extract_transcript_details w link) = Ok (Some t).
Hypothesis not_empty : t ≠ "".

(** X20.  In app.py a failure of the summarizer stays inside
    [generate_gemini_content]: a fixed message is shown, the exception is
    logged, no notes appear and the run goes on normally. *)
Theorem app_summarizer_failure_shown_and_logged (e : exn) :
  generate_content w "gemini-pro" (App.prompt +:+ t) = Raise e →
  App.on_get_notes w link
    = (trace (App.extract_transcript_details w link)
         ++ [Generate_content "gemini-pro" (App.prompt +:+ t);
             St_error "An error occurred while generating the summary. Please try again.";
             Logging_error ("Error in Gemini content generation: " +:+ str_exn e)],
       Ok tt).
Proof.
  intros Hgen. unfold App.on_get_notes.
  destruct (App.extract_transcript_details w link) as [tE rE].
  simpl in retrieved. subst rE.
  apply truthy_str_nonempty in not_empty.
  simpl. rewrite not_empty.
  unfold App.generate_gemini_content, call_generate_content.
  rewrite Hgen. done.
Qed.

(** X21.  An empty summary is treated in app.py like no summary: nothing is
    shown, neither the notes nor a message, although the summarizer
    answered. *)
Theorem app_empty_summary_shows_nothing :
  generate_content w "gemini-pro" (App.prompt +:+ t) = Ok "" →
  App.on_get_notes w link
    = (trace (App.extract_transcript_details w link)
         ++ [Generate_content "gemini-pro" (App.prompt +:+ t)],
       Ok tt).
Proof.
  intros Hgen. unfold App.on_get_notes.
  destruct (App.extract_transcript_details w link) as [tE rE].
  simpl in retrieved. subst rE.
  apply truthy_str_nonempty in not_empty.
  simpl. rewrite not_empty.
  unfold App.generate_gemini_content, call_generate_content.
  rewrite Hgen. done.
Qed.

End app_summarizer.

Lemma app_summarizer_failure_shown_and_logged_witness :
  App.on_get_notes (Sample.with_summarizer (Raise (OtherError "quota exceeded")))
                   Sample.watch_url
    = ([Get_transcript "abc" None;
        Generate_content "gemini-pro" (App.prompt +:+ "hello world");
        St_error "An error occurred while generating the summary. Please try again.";
        Logging_error "Error in Gemini content generation: quota exceeded"],
       Ok tt).
Proof.
  by apply (app_summarizer_failure_shown_and_logged
              (Sample.with_summarizer (Raise (OtherError "quota exceeded")))
              Sample.watch_url "hello world" eq_refl)
       with (e := OtherError "quota exceeded").
Defined.

Lemma app_empty_summary_shows_nothing_witness :
  App.on_get_notes (Sample.with_summarizer (Ok "")) Sample.watch_url
    = ([Get_transcript "abc" None;
        Generate_content "gemini-pro" (App.prompt +:+ "hello world")],
       Ok tt).
Proof.
  by apply (app_empty_summary_shows_nothing
              (Sample.with_summarizer (Ok "")) Sample.watch_url "hello world"
              eq_refl).
Defined.

(** ** The identifier *)

Lemma before_first_has_no_sep (sep : ascii) (s : string) :
  contains sep (before_first sep s) = false.
Proof.
  induction s as [|c s IH]; simpl; [done|].
  destruct (Ascii.eqb c sep) eqn:Hc; [done|]. simpl. by rewrite Hc.
Qed.

(** X22.  The identifier the thumbnail block binds never contains [=], and
    the link starts with some text without [=], then [=], then the
    identifier. *)
Theorem identifier_has_no_equals_sign (url id : string) :
  outcome (App5.show_thumbnail url) = Ok (Some id) →
  contains "=" id = false
  ∧ ∃ rest,
      url = before_first "=" url +:+ "=" +:+ rest
      ∧ id = before_first "=" rest.
Proof.
  unfold App5.show_thumbnail, getitem.
  destruct (truthy_str url); [|done].
  rewrite split_second.
  destruct (after_first "=" url) as [rest|] eqn:Hrest; simpl; [|done].
  intros [= <-]. split; [apply before_first_has_no_sep|].
  exists rest. split; [|done].
  clear -Hrest. induction url as [|c url IH]; simpl in *; [done|].
  destruct (Ascii.eqb_spec c "="%char) as [->|Hne].
  - by injection Hrest as ->.
  - change (String c url = String c (before_first "=" url +:+ "=" +:+ rest)).
    f_equal. by apply IH.
Qed.

Lemma identifier_has_no_equals_sign_witness :
  contains "=" "abc&t" = false
  ∧ ∃ rest,
      Sample.watch_url_with_time
        = before_first "=" Sample.watch_url_with_time +:+ "=" +:+ rest
      ∧ "abc&t" = before_first "=" rest.
Proof.
  exact (identifier_has_no_equals_sign Sample.watch_url_with_time "abc&t" eq_refl).
Defined.

(** ** A whole run of app5.py *)

Section whole_run.
Context (w : world) (link vid : string).

(** X23.  When the transcript part raised nothing, the video was found and
    the comments were fetched, the analysis ends normally with the whole
    display, and the three bucket sizes it shows add up to the number of
    comments the platform sent. *)
Theorem displayed_comment_counts_add_up
    (d : App5.video_details) (threads : list comment_thread) :
  outcome (App5.transcript_analysis w link) = Ok tt →
  outcome (App5.get_video_details w vid) = Ok (Some d) →
  comment_threads_list w vid = Ok threads →
  ∃ (buckets : gmap string (list string))
    (positive negative neutral : list string),
    App5.on_analyze w link (Some vid)
      = (trace (App5.transcript_analysis w link)
           ++ [Videos_list vid; Comment_threads_list vid]
           ++ trace (App5.display_results (Some d) buckets),
         Ok tt)
    ∧ St_write ("**Positive Comments:** " +:+ pretty (length positive))
        ∈ trace (App5.display_results (Some d) buckets)
    ∧ St_write ("**Negative Comments:** " +:+ pretty (length negative))
        ∈ trace (App5.display_results (Some d) buckets)
    ∧ St_write ("**Neutral Comments:** " +:+ pretty (length neutral))
        ∈ trace (App5.display_results (Some d) buckets)
    ∧ length positive + length negative + length neutral = length threads.
Proof.
  intros Hta Hd Hthreads.
  destruct (comments_buckets_sizes w vid threads Hthreads)
    as (buckets & positive & negative & neutral & Hrun & Hp & Hn & Hu & Hsum).
  exists buckets, positive, negative, neutral.
  destruct (display_results_closed_form d buckets positive negative neutral
              Hp Hn Hu) as [negatives Hshow].
  split_and!; [|rewrite Hshow; simpl; rewrite !elem_of_cons; tauto..|done].
  unfold App5.on_analyze, App5.analyze_body.
  pose proof (get_video_details_trace w vid) as Htr.
  destruct (App5.transcript_analysis w link) as [tT rT].
  simpl in Hta. subst rT. simpl.
  destruct (App5.get_video_details w vid) as [tD rD].
  simpl in Hd, Htr. subst rD tD. simpl.
  rewrite Hrun. simpl. by rewrite Hshow.
Qed.

End whole_run.

Lemma displayed_comment_counts_add_up_witness :
  ∃ (buckets : gmap string (list string))
    (positive negative neutral : list string),
    App5.on_analyze Sample.english Sample.watch_url (Some "abc")
      = (trace (App5.transcript_analysis Sample.english Sample.watch_url)
           ++ [Videos_list "abc"; Comment_threads_list "abc"]
           ++ trace (App5.display_results
                       (Some (App5.VideoDetails "A title" "A channel" 12 0 0 0 "UC1"))
                       buckets),
         Ok tt)
    ∧ St_write ("**Positive Comments:** " +:+ pretty (length positive))
        ∈ trace (App5.display_results
                   (Some (App5.VideoDetails "A title" "A channel" 12 0 0 0 "UC1"))
                   buckets)
    ∧ St_write ("**Negative Comments:** " +:+ pretty (length negative))
        ∈ trace (App5.display_results
                   (Some (App5.VideoDetails "A title" "A channel" 12 0 0 0 "UC1"))
                   buckets)
    ∧ St_write ("**Neutral Comments:** " +:+ pretty (length neutral))
        ∈ trace (App5.display_results
                   (Some (App5.VideoDetails "A title" "A channel" 12 0 0 0 "UC1"))
                   buckets)
    ∧ length positive + length negative + length neutral
        = length Sample.threads.
Proof.
  exact (displayed_comment_counts_add_up Sample.english Sample.watch_url "abc"
           (App5.VideoDetails "A title" "A channel" 12 0 0 0 "UC1") Sample.threads
           eq_refl eq_refl eq_refl).
Defined.

(** X24.  A run of app5.py ends with an uncaught exception exactly when the
    link is not empty and has no [=]; for every other link it ends normally,
    whatever the services answer and whether or not the button is pressed. *)
Theorem app5_script_raises_exactly_without_identifier
    (w : world) (link : string) (pressed : bool) :
  (outcome (App5.script w link pressed) = Ok tt
   ↔ link = "" ∨ contains "=" link = true)
  ∧ (outcome (App5.script w link pressed) = Raise IndexError
     ↔ link ≠ "" ∧ contains "=" link = false).
Proof.
  assert (∀ video_id, outcome (if pressed then App5.on_analyze w link video_id
                               else ret tt) = Ok tt) as Hbutton.
  { intros video_id. destruct pressed; [|done].
    apply outcome_try_except_total. }
  assert (truthy_str link = true ∧ contains "=" link = false
          ∨ ∃ v, outcome (App5.show_thumbnail link) = Ok v) as [[Ht Hc]|[v Hv]].
  { unfold App5.show_thumbnail, getitem.
    destruct (truthy_str link); [|by eauto].
    destruct (contains "=" link) eqn:Hc; [|by left].
    apply after_first_contains in Hc as [rest Hrest].
    rewrite split_second, Hrest. simpl. eauto. }
  - unfold App5.script, App5.show_thumbnail, getitem.
    rewrite Ht, (split_without_sep _ _ Hc). simpl.
    apply truthy_str_nonempty in Ht.
    split; split; try done; intros [? | ?]; congruence.
  - assert (link = "" ∨ contains "=" link = true) as Hlink.
    { revert Hv. unfold App5.show_thumbnail, getitem.
      destruct link as [|c link]; [by left|]. simpl truthy_str. cbv iota.
      destruct (contains "=" (String c link)) eqn:Hc; [by right|].
      by rewrite (split_without_sep _ _ Hc). }
    unfold App5.script. specialize (Hbutton v).
    destruct (App5.show_thumbnail link) as [tT rT]. simpl in Hv. subst rT.
    simpl. destruct (if pressed then _ else _) as [tB rB].
    simpl in Hbutton. subst rB. simpl.
    split; split; try done.
    intros [Hne Hc]. destruct Hlink as [->|Hc']; [done|congruence].
Qed.
